(** * vulkan-triangle-v1: device selection, swap-chain construction and
      the main window loop, embedded from [src/vulkan_methods.c],
      [src/error_methods.c] and [src/main.c].

    The C functions are translated into a small monad [Run] that records
    the observable effects of a call (log lines, native creation calls,
    helper calls of [main]) and whether the call returned to its caller or
    ended the process through [hardExit].  Every answer of the Vulkan
    loader, of GLFW and of [malloc] is read from a [World] record, so a
    statement quantified over [World] speaks about every machine the code
    may run on. *)

From Stdlib Require Import ZArith List String Bool Lia.
From ExtLib Require Import Structures.Monad.
Import ListNotations.
Import MonadNotation.

Local Open Scope string_scope.
Local Open Scope list_scope.
Local Open Scope Z_scope.
Local Open Scope monad_scope.

(** ** Constants of [vulkan_core.h] and [stdlib.h] used by the code *)

Definition VK_SUCCESS : Z := 0.
Definition VK_NULL_HANDLE : Z := 0.
Definition VK_TRUE : Z := 1.
Definition VK_QUEUE_GRAPHICS_BIT : Z := 1.
Definition VK_QUEUE_COMPUTE_BIT : Z := 2.
Definition VK_QUEUE_TRANSFER_BIT : Z := 4.
Definition VK_SHARING_MODE_EXCLUSIVE : Z := 0.
Definition VK_SHARING_MODE_CONCURRENT : Z := 1.
Definition VK_FORMAT_R8G8B8A8_UNORM : Z := 37.
Definition VK_FORMAT_B8G8R8A8_UNORM : Z := 44.
Definition VK_COLOR_SPACE_SRGB_NONLINEAR_KHR : Z := 0.
Definition VK_PRESENT_MODE_FIFO_KHR : Z := 2.
Definition VK_IMAGE_USAGE_COLOR_ATTACHMENT_BIT : Z := 16.
Definition VK_COMPOSITE_ALPHA_OPAQUE_BIT_KHR : Z := 1.
Definition VK_STRUCTURE_TYPE_APPLICATION_INFO : Z := 0.
Definition VK_STRUCTURE_TYPE_INSTANCE_CREATE_INFO : Z := 1.
Definition VK_STRUCTURE_TYPE_SWAPCHAIN_CREATE_INFO_KHR : Z := 1000001000.
Definition VK_ERROR_INITIALIZATION_FAILED : Z := -3.
Definition EXIT_SUCCESS : Z := 0.
Definition EXIT_FAILURE : Z := 1.

(** [VK_MAKE_VERSION(major, minor, patch)] *)
Definition VK_MAKE_VERSION (major minor patch : Z) : Z :=
  Z.lor (Z.lor (Z.shiftl major 22) (Z.shiftl minor 12)) patch.
Definition VK_API_VERSION_1_0 : Z := VK_MAKE_VERSION 1 0 0.

(** Size in bytes of the two element types the code allocates arrays of
    (LP64: a dispatchable handle is a pointer; [VkQueueFamilyProperties]
    is six 32-bit words). *)
Definition sizeof_VkPhysicalDevice : Z := 8.
Definition sizeof_VkQueueFamilyProperties : Z := 24.

(** A [uint32_t] returned through an [int32_t] return type. *)
Definition int32_of_uint32 (u : Z) : Z :=
  (u + 2 ^ 31) mod 2 ^ 32 - 2 ^ 31.

(** ** Data *)

(** Handles ([VkInstance], [VkPhysicalDevice], [VkDevice], [VkSurfaceKHR],
    [VkSwapchainKHR]) are pointers or 64-bit integers; the null handle is 0. *)
Definition Handle := Z.
Definition VkResult := Z.

(** The two fields of [VkQueueFamilyProperties] the code reads. *)
Record VkQueueFamilyProperties := mkQueueFamily {
  queueFlags : Z;
  queueCount : Z
}.

Record VkExtent2D := mkExtent { width : Z; height : Z }.

Record VkSurfaceFormatKHR := mkSurfaceFormat { format : Z; colorSpace : Z }.

Record VkSurfaceCapabilitiesKHR := mkCapabilities {
  cap_minImageCount : Z;
  cap_maxImageCount : Z;
  cap_currentTransform : Z
}.

(** [struct DeviceIndices], as [getDeviceIndices] fills it and
    [createSwapChain] reads it. *)
Record DeviceIndices := mkDeviceIndices {
  hasGraphics : bool;
  graphicsIndex : Z;
  hasCompute : bool;
  computeIndex : Z;
  hasPresent : bool;
  presentIndex : Z
}.

(** [struct InstanceInfo], as [getInstanceInfo] fills it. *)
Record InstanceInfo := mkInstanceInfo {
  extensionCount : Z;
  ppExtensionNames : list string;
  layerCount : Z;
  ppLayerNames : list string
}.

Record VkApplicationInfo := mkApplicationInfo {
  app_sType : Z;
  pApplicationName : string;
  applicationVersion : Z;
  pEngineName : string;
  engineVersion : Z;
  apiVersion : Z
}.

Record VkInstanceCreateInfo := mkInstanceCreateInfo {
  ici_sType : Z;
  pApplicationInfo : VkApplicationInfo;
  enabledExtensionCount : Z;
  ppEnabledExtensionNames : list string;
  enabledLayerCount : Z;
  ppEnabledLayerNames : list string
}.

(** [pQueueFamilyIndices] is either [NULL] or the local two-element array
    [queueFamilyIndices]. *)
Record VkSwapchainCreateInfoKHR := mkSwapchainCreateInfo {
  sType : Z;
  surface : Handle;
  minImageCount : Z;
  imageFormat : Z;
  imageColorSpace : Z;
  imageExtent : VkExtent2D;
  imageArrayLayers : Z;
  imageUsage : Z;
  imageSharingMode : Z;
  queueFamilyIndexCount : Z;
  pQueueFamilyIndices : option (list Z);
  preTransform : Z;
  compositeAlpha : Z;
  presentMode : Z;
  clipped : Z;
  oldSwapchain : Handle
}.

(** ** Effects *)

Inductive LogLevel := INFO | WARN | ERROR | FATAL | UNKNOWN.

(** What a run leaves behind: lines written by [errLog] and [printError],
    native creation calls, and (for [main]) calls of helpers by name with
    the argument text of the call site. *)
Inductive Event :=
| EvLog (level : LogLevel) (fmt : string) (args : list Z)
| EvPrintError
| EvCreateInstance (ci : VkInstanceCreateInfo)
| EvCreateSwapchain (device : Handle) (ci : VkSwapchainCreateInfoKHR)
| EvCall (callee : string) (args : list string).

Inductive Outcome (A : Type) :=
| Returned (a : A)
| Exited (status : Z)
| OutOfFuel.
Arguments Returned {A} a.
Arguments Exited {A} status.
Arguments OutOfFuel {A}.

Definition Run (A : Type) : Type := (list Event * Outcome A)%type.

Definition trace {A} (r : Run A) : list Event := fst r.
Definition outcome {A} (r : Run A) : Outcome A := snd r.

Definition Run_bind {A B} (m : Run A) (k : A -> Run B) : Run B :=
  match snd m with
  | Returned a => (fst m ++ fst (k a), snd (k a))
  | Exited s => (fst m, Exited s)
  | OutOfFuel => (fst m, OutOfFuel)
  end.

#[global] Instance Monad_Run : Monad Run := {|
  ret := fun A (a : A) => ([], Returned a);
  bind := fun A B => @Run_bind A B
|}.

Definition emit (e : Event) : Run unit := ([e], Returned tt).

(** [if (c) { body }] *)
Definition when (c : bool) (body : Run unit) : Run unit :=
  if c then body else ret tt.

(** [error_methods.c]: [void hardExit() { exit(EXIT_FAILURE); }] *)
Definition hardExit : Run unit := ([], Exited EXIT_FAILURE).

(** [error_methods.c]: [printError] writes one line to stderr. *)
Definition printError : Run unit := emit EvPrintError.

(** Modelled from the spec: [errLog] is defined outside [src/]; the spec's
    [hardExit] is "the only error path" and errors "terminate the process
    after logging", so [errLog] writes its line and returns. *)
Definition errLog (level : LogLevel) (fmt : string) (args : list Z) : Run unit :=
  emit (EvLog level fmt args).

(** ** The world the code runs in *)

Record World := mkWorld {
  (** compile-time constant of [constants.h] *)
  APPNAME : string;
  (** does [malloc] of that many bytes return a non-null pointer *)
  malloc_ok : Z -> bool;
  (** result and enumerated devices of [vkEnumeratePhysicalDevices] *)
  vkEnumeratePhysicalDevices : Handle -> VkResult * list Handle;
  vkGetPhysicalDeviceQueueFamilyProperties :
    Handle -> list VkQueueFamilyProperties;
  (** device, queue family index, surface: the [VkBool32] written *)
  vkGetPhysicalDeviceSurfaceSupportKHR : Handle -> Z -> Handle -> Z;
  vkGetPhysicalDeviceSurfaceCapabilitiesKHR :
    Handle -> Handle -> VkSurfaceCapabilitiesKHR;
  (** the formats the device reports for a surface *)
  vkGetPhysicalDeviceSurfaceFormatsKHR :
    Handle -> Handle -> list VkSurfaceFormatKHR;
  vkCreateInstance : VkInstanceCreateInfo -> VkResult * Handle;
  vkCreateSwapchainKHR : Handle -> VkSwapchainCreateInfoKHR -> VkResult * Handle;
  (** [findMatchingStrings(a, na, b, nb, NULL, 0, &matchnum)] of
      [util_methods]: the value left in [matchnum] *)
  findMatchingStrings : list string -> Z -> list string -> Z -> Z;
  (** [main.c]: GLFW's required instance extensions *)
  glfwGetRequiredInstanceExtensions : list string;
  (** [main.c]: status returned by a helper, by name and argument text *)
  helper_status : string -> list string -> VkResult;
  (** [main.c]: answer of the k-th [glfwWindowShouldClose] *)
  glfwWindowShouldClose : nat -> bool
}.

(** ** [vulkan_methods.c] *)

Section Methods.

Variable w : World.

(** The [VkApplicationInfo] and [VkInstanceCreateInfo] structures filled at
    [vulkan_methods.c:77-92]. *)
Definition createInstance_createInfo
    (enabledExtensionCount : Z) (ppEnabledExtensionNames : list string)
    (enabledLayerCount : Z) (ppEnabledLayerNames : list string)
    : VkInstanceCreateInfo :=
  (* Create app info *)
  let appInfo :=
    {| app_sType := VK_STRUCTURE_TYPE_APPLICATION_INFO;
       pApplicationName := APPNAME w;
       applicationVersion := VK_MAKE_VERSION 1 0 0;
       pEngineName := "None";
       engineVersion := VK_MAKE_VERSION 1 0 0;
       apiVersion := VK_API_VERSION_1_0 |} in
  (* Create info *)
  {| ici_sType := VK_STRUCTURE_TYPE_INSTANCE_CREATE_INFO;
     pApplicationInfo := appInfo;
     enabledExtensionCount := enabledExtensionCount;
     ppEnabledExtensionNames := ppEnabledExtensionNames;
     enabledLayerCount := enabledLayerCount;
     ppEnabledLayerNames := ppEnabledLayerNames |}.

Definition createInstance (instanceInfo : InstanceInfo)
    (enabledExtensionCount : Z) (ppEnabledExtensionNames : list string)
    (enabledLayerCount : Z) (ppEnabledLayerNames : list string) : Run Handle :=
  (* check layers and extensions *)
  let matchnum :=
    findMatchingStrings w (ppExtensionNames instanceInfo)
      (extensionCount instanceInfo) ppEnabledExtensionNames
      enabledExtensionCount in
  when (negb (matchnum =? enabledExtensionCount))
    (errLog FATAL "failed to find required extension\n" [] ;; hardExit) ;;
  let matchnum :=
    findMatchingStrings w (ppLayerNames instanceInfo)
      (layerCount instanceInfo) ppEnabledLayerNames enabledLayerCount in
  when (negb (matchnum =? enabledLayerCount))
    (errLog FATAL "failed to find required layer\n" [] ;; hardExit) ;;
  let createInfo :=
    createInstance_createInfo enabledExtensionCount ppEnabledExtensionNames
      enabledLayerCount ppEnabledLayerNames in
  emit (EvCreateInstance createInfo) ;;
  let result := fst (vkCreateInstance w createInfo) in
  let instance := snd (vkCreateInstance w createInfo) in
  when (negb (result =? VK_SUCCESS))
    (errLog ERROR "Failed to create instance, error code: %d"
       [result mod 2 ^ 32] ;;
     hardExit) ;;
  ret instance.

(** The array filled by [vkGetPhysicalDeviceQueueFamilyProperties] is read
    by index; an index past its end never occurs inside the loops below. *)
Definition noQueueFamily : VkQueueFamilyProperties := mkQueueFamily 0 0.

(** The [for] loop of [getDeviceQueueIndex]: [remaining] iterations are
    left, [i] is the loop counter.  The count is read from [arr[i]], the
    flags from [arr[0]], as in the source. *)
Fixpoint getDeviceQueueIndex_loop (arr : list VkQueueFamilyProperties)
    (bit : Z) (remaining i : nat) : option nat :=
  match remaining with
  | O => None
  | S remaining' =>
      if (queueCount (nth i arr noQueueFamily) >? 0)
         && negb (Z.land (queueFlags (nth 0 arr noQueueFamily)) bit =? 0)
      then Some i
      else getDeviceQueueIndex_loop arr bit remaining' (S i)
  end.

Definition getDeviceQueueIndex (device : Handle) (bit : Z) : Run Z :=
  let arr := vkGetPhysicalDeviceQueueFamilyProperties w device in
  let queueFamilyCount := Z.of_nat (List.length arr) in
  when (negb (malloc_ok w (queueFamilyCount * sizeof_VkQueueFamilyProperties)))
    (printError ;; hardExit) ;;
  match getDeviceQueueIndex_loop arr bit (List.length arr) 0 with
  | Some i => ret (int32_of_uint32 (Z.of_nat i))
  | None => ret (-1)
  end.

(** The [for] loop of [getPresentQueueIndex]. *)
Fixpoint getPresentQueueIndex_loop (device surface : Handle)
    (remaining i : nat) : option nat :=
  match remaining with
  | O => None
  | S remaining' =>
      let surfaceSupport :=
        vkGetPhysicalDeviceSurfaceSupportKHR w device (Z.of_nat i) surface in
      if negb (surfaceSupport =? 0)
      then Some i
      else getPresentQueueIndex_loop device surface remaining' (S i)
  end.

Definition getPresentQueueIndex (device surface : Handle) : Run Z :=
  let arr := vkGetPhysicalDeviceQueueFamilyProperties w device in
  let queueFamilyCount := Z.of_nat (List.length arr) in
  when (negb (malloc_ok w (queueFamilyCount * sizeof_VkQueueFamilyProperties)))
    (printError ;; hardExit) ;;
  match getPresentQueueIndex_loop device surface (List.length arr) 0 with
  | Some i => ret (int32_of_uint32 (Z.of_nat i))
  | None => ret (-1)
  end.

(** The selection loop of [createPhysicalDevice] over [arr[0..deviceCount)];
    the properties it fetches per device are never read. *)
Fixpoint createPhysicalDevice_loop (arr : list Handle)
    (selectedDevice : Handle) : Run Handle :=
  match arr with
  | [] => ret selectedDevice
  | arr_i :: rest =>
      r <- getDeviceQueueIndex arr_i
             (Z.lor VK_QUEUE_GRAPHICS_BIT VK_QUEUE_COMPUTE_BIT) ;;
      createPhysicalDevice_loop rest
        (if negb (r =? -1) then arr_i else selectedDevice)
  end.

Definition createPhysicalDevice (instance : Handle) : Run Handle :=
  let res := fst (vkEnumeratePhysicalDevices w instance) in
  let arr := snd (vkEnumeratePhysicalDevices w instance) in
  let deviceCount := Z.of_nat (List.length arr) in
  when (negb (res =? VK_SUCCESS) || (deviceCount =? 0))
    (errLog FATAL "no Vulkan capable device found" [] ;; hardExit) ;;
  when (negb (malloc_ok w (deviceCount * sizeof_VkPhysicalDevice)))
    (printError ;; hardExit) ;;
  selectedDevice <- createPhysicalDevice_loop arr VK_NULL_HANDLE ;;
  when (selectedDevice =? VK_NULL_HANDLE)
    (errLog ERROR "no suitable Vulkan device found\n" [] ;; hardExit) ;;
  ret selectedDevice.

Definition getDeviceIndices (physicalDevice surface : Handle)
    : Run DeviceIndices :=
  tmp <- getDeviceQueueIndex physicalDevice VK_QUEUE_GRAPHICS_BIT ;;
  let hasGraphics := negb (tmp =? -1) in
  let graphicsIndex := if hasGraphics then tmp mod 2 ^ 32 else 0 in
  tmp <- getDeviceQueueIndex physicalDevice VK_QUEUE_COMPUTE_BIT ;;
  let hasCompute := negb (tmp =? -1) in
  let computeIndex := if hasCompute then tmp mod 2 ^ 32 else 0 in
  if negb (surface =? VK_NULL_HANDLE) then
    tmp <- getPresentQueueIndex physicalDevice surface ;;
    let hasPresent := negb (tmp =? -1) in
    let presentIndex := if hasPresent then tmp mod 2 ^ 32 else 0 in
    ret (mkDeviceIndices hasGraphics graphicsIndex hasCompute computeIndex
           hasPresent presentIndex)
  else
    ret (mkDeviceIndices hasGraphics graphicsIndex hasCompute computeIndex
           false 0).

(** The [VkSwapchainCreateInfoKHR] structure filled at
    [vulkan_methods.c:479-511]; [capabilities] is what
    [vkGetPhysicalDeviceSurfaceCapabilitiesKHR] wrote at line 476. *)
Definition createSwapChain_createInfo (oldSwapChain physicalDevice surface : Handle)
    (extent : VkExtent2D) (deviceIndices : DeviceIndices)
    : VkSwapchainCreateInfoKHR :=
  let capabilities :=
    vkGetPhysicalDeviceSurfaceCapabilitiesKHR w physicalDevice surface in
  let queueFamilyIndices :=
    [graphicsIndex deviceIndices; presentIndex deviceIndices] in
  let differ :=
    negb (graphicsIndex deviceIndices =? presentIndex deviceIndices) in
  {| sType := VK_STRUCTURE_TYPE_SWAPCHAIN_CREATE_INFO_KHR;
     surface := surface;
     minImageCount := 2;
     imageFormat := VK_FORMAT_B8G8R8A8_UNORM;
     imageColorSpace := VK_COLOR_SPACE_SRGB_NONLINEAR_KHR;
     imageExtent := extent;
     imageArrayLayers := 1;
     imageUsage := VK_IMAGE_USAGE_COLOR_ATTACHMENT_BIT;
     imageSharingMode :=
       if differ then VK_SHARING_MODE_CONCURRENT
       else VK_SHARING_MODE_EXCLUSIVE;
     queueFamilyIndexCount := if differ then 2 else 0;
     pQueueFamilyIndices := if differ then Some queueFamilyIndices else None;
     preTransform := cap_currentTransform capabilities;
     compositeAlpha := VK_COMPOSITE_ALPHA_OPAQUE_BIT_KHR;
     presentMode := VK_PRESENT_MODE_FIFO_KHR;
     clipped := VK_TRUE;
     oldSwapchain := oldSwapChain |}.

Definition createSwapChain (oldSwapChain device physicalDevice surface : Handle)
    (extent : VkExtent2D) (deviceIndices : DeviceIndices) : Run Handle :=
  when (negb (hasGraphics deviceIndices) || negb (hasPresent deviceIndices))
    (errLog FATAL "Invalid device to create swap chain\n" []) ;;
  let createInfo :=
    createSwapChain_createInfo oldSwapChain physicalDevice surface extent
      deviceIndices in
  emit (EvCreateSwapchain device createInfo) ;;
  let res := fst (vkCreateSwapchainKHR w device createInfo) in
  let swapChain := snd (vkCreateSwapchainKHR w device createInfo) in
  when (negb (res =? VK_SUCCESS))
    (errLog ERROR "Failed to create swap chain, error code: %d"
       [res mod 2 ^ 32] ;;
     hardExit) ;;
  ret swapChain.

End Methods.

(** ** [main.c] *)

(** [main] is written against helpers ([new_Instance], [delete_Device], ...)
    that are declared in headers and defined outside [src/]; each call is
    recorded by callee name and argument text.  Only the results [main]
    branches on are read from the world. *)
Definition call (callee : string) (args : list string) : Run unit :=
  emit (EvCall callee args).

(** Modelled from the spec: [panic] is declared in [errors.h], outside
    [src/]; fatal conditions "terminate the process", so [panic] ends the
    run. *)
Definition panic : Run unit := ([EvCall "panic" []], Exited EXIT_FAILURE).

Definition sizeof_pointer : Z := 8.

Definition is_call (name : string) (e : Event) : bool :=
  match e with
  | EvCall callee _ => String.eqb callee name
  | _ => false
  end.

(** How often a helper is called in a trace. *)
Definition calls_of (name : string) (tr : list Event) : nat :=
  List.length (filter (is_call name) tr).

Section Main.

Variable w : World.

(** Body of the [while] loop at [main.c:170-172]. *)
Definition main_loop_body : Run unit :=
  call "glfwPollEvents" [].

(** [while (!glfwWindowShouldClose(pWindow)) { glfwPollEvents(); }];
    [k] counts the queries made so far. *)
Fixpoint main_loop (fuel k : nat) : Run unit :=
  match fuel with
  | O => ([], OutOfFuel)
  | S fuel' =>
      call "glfwWindowShouldClose" ["pWindow"] ;;
      if glfwWindowShouldClose w k then ret tt
      else main_loop_body ;; main_loop fuel' (S k)
  end.

(** [main.c:175-193], from the comment [cleanup] to [glfwTerminate]. *)
Definition main_cleanup : Run unit :=
  call "delete_Semaphore" ["&renderFinishedSemaphore"; "device"] ;;
  call "delete_Semaphore" ["&imageAvailableSemaphore"; "device"] ;;
  call "delete_GraphicsCommandBuffers" ["&pGraphicsCommandBuffers"] ;;
  call "delete_CommandPool" ["&commandPool"; "device"] ;;
  call "delete_SwapChainFramebuffers"
    ["&pSwapChainFramebuffers"; "swapChainImageCount"; "device"] ;;
  call "delete_Pipeline" ["&graphicsPipeline"; "device"] ;;
  call "delete_PipelineLayout" ["&graphicsPipelineLayout"; "device"] ;;
  call "delete_RenderPass" ["&renderPass"; "device"] ;;
  call "delete_SwapChainImageViews"
    ["&pSwapChainImageViews"; "swapChainImageCount"; "device"] ;;
  call "delete_SwapChainImages" ["&pSwapChainImages"] ;;
  call "delete_SwapChain" ["&swapChain"; "device"] ;;
  call "delete_Device" ["&device"] ;;
  call "delete_DebugCallback" ["&callback"; "instance"] ;;
  call "delete_Instance" ["&instance"] ;;
  call "free" ["ppExtensionNames"] ;;
  call "glfwTerminate" [].

(** [main.c:18-167], everything before the window loop. *)
Definition main_setup : Run unit :=
  call "glfwInit" [] ;;
  call "glfwGetRequiredInstanceExtensions" ["&glfwExtensionCount"] ;;
  let glfwExtensionCount :=
    Z.of_nat (List.length (glfwGetRequiredInstanceExtensions w)) in
  let extensionCount := (1 + glfwExtensionCount) mod 2 ^ 32 in
  when (negb (malloc_ok w (sizeof_pointer * extensionCount)))
    (errLog FATAL "failed to allocate memory: %s" [] ;; panic) ;;
  call "new_Instance"
    ["&instance"; "extensionCount"; "ppExtensionNames"; "layerCount";
     "ppLayerNames"] ;;
  call "new_DebugCallback" ["&callback"; "instance"] ;;
  call "getPhysicalDevice" ["&physicalDevice"; "instance"] ;;
  call "createGlfwWindow" [] ;;
  call "createSurface" ["pWindow"; "instance"] ;;
  let graphicsArgs :=
    ["&graphicsIndex"; "physicalDevice"; "VK_QUEUE_GRAPHICS_BIT"] in
  let computeArgs :=
    ["&computeIndex"; "physicalDevice"; "VK_QUEUE_COMPUTE_BIT"] in
  let presentArgs := ["&presentIndex"; "physicalDevice"; "surface"] in
  call "getDeviceQueueIndex" graphicsArgs ;;
  let ret1 := helper_status w "getDeviceQueueIndex" graphicsArgs in
  call "getDeviceQueueIndex" computeArgs ;;
  let ret2 := helper_status w "getDeviceQueueIndex" computeArgs in
  call "getPresentQueueIndex" presentArgs ;;
  let ret3 := helper_status w "getPresentQueueIndex" presentArgs in
  when (negb (ret1 =? VK_SUCCESS) || negb (ret2 =? VK_SUCCESS)
        || negb (ret3 =? VK_SUCCESS))
    (errLog FATAL "unable to acquire indices\n" [] ;; panic) ;;
  call "new_Device"
    ["&device"; "physicalDevice"; "graphicsIndex"; "deviceExtensionCount";
     "ppDeviceExtensionNames"; "layerCount"; "ppLayerNames"] ;;
  call "getPreferredSurfaceFormat"
    ["&surfaceFormat"; "physicalDevice"; "surface"] ;;
  call "new_SwapChain"
    ["&swapChain"; "&swapChainImageCount"; "VK_NULL_HANDLE"; "surfaceFormat";
     "physicalDevice"; "device"; "surface"; "swapChainExtent";
     "graphicsIndex"; "presentIndex"] ;;
  call "new_SwapChainImages"
    ["&pSwapChainImages"; "&swapChainImageCount"; "device"; "swapChain"] ;;
  call "new_SwapChainImageViews"
    ["&pSwapChainImageViews"; "device"; "surfaceFormat.format";
     "swapChainImageCount"; "pSwapChainImages"] ;;
  call "readShaderFile"
    ["assets/shaders/shader.frag.spv"; "&fragShaderFileLength";
     "&fragShaderFileContents"] ;;
  call "new_ShaderModule"
    ["&fragShaderModule"; "device"; "fragShaderFileLength";
     "fragShaderFileContents"] ;;
  call "free" ["fragShaderFileContents"] ;;
  call "readShaderFile"
    ["assets/shaders/shader.vert.spv"; "&vertShaderFileLength";
     "&vertShaderFileContents"] ;;
  call "new_ShaderModule"
    ["&vertShaderModule"; "device"; "vertShaderFileLength";
     "vertShaderFileContents"] ;;
  call "free" ["vertShaderFileContents"] ;;
  call "new_RenderPass" ["&renderPass"; "device"; "surfaceFormat.format"] ;;
  call "new_PipelineLayout" ["&graphicsPipelineLayout"; "device"] ;;
  call "new_GraphicsPipeline"
    ["&graphicsPipeline"; "device"; "vertShaderModule"; "fragShaderModule";
     "swapChainExtent"; "renderPass"; "graphicsPipelineLayout"] ;;
  call "delete_ShaderModule" ["&fragShaderModule"; "device"] ;;
  call "delete_ShaderModule" ["&vertShaderModule"; "device"] ;;
  call "new_SwapChainFramebuffers"
    ["&pSwapChainFramebuffers"; "device"; "renderPass"; "swapChainExtent";
     "swapChainImageCount"; "pSwapChainImageViews"] ;;
  call "new_CommandPool" ["&commandPool"; "device"; "graphicsIndex"] ;;
  call "new_GraphicsCommandBuffers"
    ["&pGraphicsCommandBuffers"; "device"; "renderPass"; "graphicsPipeline";
     "commandPool"; "swapChainExtent"; "swapChainImageCount";
     "pSwapChainFramebuffers"] ;;
  call "create_Semaphore" ["&imageAvailableSemaphore"; "device"] ;;
  call "create_Semaphore" ["&renderFinishedSemaphore"; "device"].

Definition main (fuel : nat) : Run Z :=
  main_setup ;;
  main_loop fuel 0 ;;
  main_cleanup ;;
  ret EXIT_SUCCESS.

End Main.

(** ** What the specification asks for, in its own words *)

Module Spec.

(** "queue family selection picks the first family satisfying the bitmask":
    the first family, in enumeration order and with a nonzero queue count,
    whose own flags meet the mask. *)
Fixpoint findQueueFamily (families : list VkQueueFamilyProperties)
    (requiredBits : Z) (i : nat) : option nat :=
  match families with
  | [] => None
  | f :: rest =>
      if (queueCount f >? 0) && negb (Z.land (queueFlags f) requiredBits =? 0)
      then Some i
      else findQueueFamily rest requiredBits (S i)
  end.

(** "request the capabilities-reported minimum plus one, clamped to the
    device's reported maximum". *)
Definition image_count (capabilities : VkSurfaceCapabilitiesKHR) : Z :=
  Z.min (cap_minImageCount capabilities + 1) (cap_maxImageCount capabilities).

Definition same_format (a b : VkSurfaceFormatKHR) : bool :=
  (format a =? format b) && (colorSpace a =? colorSpace b).

(** "choose the first format matching a preferred (color format, color
    space) pair if present, else fall back to the first supported format". *)
Definition choose_format (preferred : VkSurfaceFormatKHR)
    (supported : list VkSurfaceFormatKHR) : option VkSurfaceFormatKHR :=
  match find (same_format preferred) supported with
  | Some f => Some f
  | None => hd_error supported
  end.

(** A family "supporting graphics and compute" carries both bits and at
    least one queue. *)
Definition supports_graphics_and_compute (f : VkQueueFamilyProperties) : bool :=
  let both := Z.lor VK_QUEUE_GRAPHICS_BIT VK_QUEUE_COMPUTE_BIT in
  (queueCount f >? 0) && (Z.land (queueFlags f) both =? both).

End Spec.

(** ** Reading a trace *)

(** The creation requests handed to [vkCreateSwapchainKHR] during a run. *)
Fixpoint swapchain_requests (tr : list Event) : list VkSwapchainCreateInfoKHR :=
  match tr with
  | [] => []
  | EvCreateSwapchain _ ci :: rest => ci :: swapchain_requests rest
  | _ :: rest => swapchain_requests rest
  end.

(** ** Worlds used to run the code on concrete inputs *)

Definition all_queue_bits : Z :=
  Z.lor VK_QUEUE_GRAPHICS_BIT (Z.lor VK_QUEUE_COMPUTE_BIT VK_QUEUE_TRANSFER_BIT).

(** One device (handle 101) with one all-purpose queue family that can
    present; the surface wants 3 to 4 images and offers one RGBA format;
    every allocation and every native call succeeds; the window closes at
    the third query. *)
Definition plain_world : World := {|
  APPNAME := "vulkan-triangle-v1";
  malloc_ok := fun _ => true;
  vkEnumeratePhysicalDevices := fun _ => (VK_SUCCESS, [101]);
  vkGetPhysicalDeviceQueueFamilyProperties :=
    fun _ => [mkQueueFamily all_queue_bits 1];
  vkGetPhysicalDeviceSurfaceSupportKHR := fun _ _ _ => VK_TRUE;
  vkGetPhysicalDeviceSurfaceCapabilitiesKHR := fun _ _ => mkCapabilities 3 4 1;
  vkGetPhysicalDeviceSurfaceFormatsKHR :=
    fun _ _ =>
      [mkSurfaceFormat VK_FORMAT_R8G8B8A8_UNORM VK_COLOR_SPACE_SRGB_NONLINEAR_KHR];
  vkCreateInstance := fun _ => (VK_SUCCESS, 11);
  vkCreateSwapchainKHR := fun _ _ => (VK_SUCCESS, 77);
  findMatchingStrings := fun _ _ _ nb => nb;
  glfwGetRequiredInstanceExtensions := ["VK_KHR_surface"; "VK_KHR_xcb_surface"];
  helper_status := fun _ _ => VK_SUCCESS;
  glfwWindowShouldClose := fun k => Nat.leb 2 k
|}.

(** [plain_world] with other queue families per device, other surface
    support, or other enumerated devices. *)
Definition with_families (w : World)
    (families : Handle -> list VkQueueFamilyProperties) : World := {|
  APPNAME := APPNAME w;
  malloc_ok := malloc_ok w;
  vkEnumeratePhysicalDevices := vkEnumeratePhysicalDevices w;
  vkGetPhysicalDeviceQueueFamilyProperties := families;
  vkGetPhysicalDeviceSurfaceSupportKHR := vkGetPhysicalDeviceSurfaceSupportKHR w;
  vkGetPhysicalDeviceSurfaceCapabilitiesKHR :=
    vkGetPhysicalDeviceSurfaceCapabilitiesKHR w;
  vkGetPhysicalDeviceSurfaceFormatsKHR := vkGetPhysicalDeviceSurfaceFormatsKHR w;
  vkCreateInstance := vkCreateInstance w;
  vkCreateSwapchainKHR := vkCreateSwapchainKHR w;
  findMatchingStrings := findMatchingStrings w;
  glfwGetRequiredInstanceExtensions := glfwGetRequiredInstanceExtensions w;
  helper_status := helper_status w;
  glfwWindowShouldClose := glfwWindowShouldClose w
|}.

Definition with_surface_support (w : World)
    (support : Handle -> Z -> Handle -> Z) : World := {|
  APPNAME := APPNAME w;
  malloc_ok := malloc_ok w;
  vkEnumeratePhysicalDevices := vkEnumeratePhysicalDevices w;
  vkGetPhysicalDeviceQueueFamilyProperties :=
    vkGetPhysicalDeviceQueueFamilyProperties w;
  vkGetPhysicalDeviceSurfaceSupportKHR := support;
  vkGetPhysicalDeviceSurfaceCapabilitiesKHR :=
    vkGetPhysicalDeviceSurfaceCapabilitiesKHR w;
  vkGetPhysicalDeviceSurfaceFormatsKHR := vkGetPhysicalDeviceSurfaceFormatsKHR w;
  vkCreateInstance := vkCreateInstance w;
  vkCreateSwapchainKHR := vkCreateSwapchainKHR w;
  findMatchingStrings := findMatchingStrings w;
  glfwGetRequiredInstanceExtensions := glfwGetRequiredInstanceExtensions w;
  helper_status := helper_status w;
  glfwWindowShouldClose := glfwWindowShouldClose w
|}.

Definition with_devices (w : World) (res : VkResult) (devices : list Handle)
    : World := {|
  APPNAME := APPNAME w;
  malloc_ok := malloc_ok w;
  vkEnumeratePhysicalDevices := fun _ => (res, devices);
  vkGetPhysicalDeviceQueueFamilyProperties :=
    vkGetPhysicalDeviceQueueFamilyProperties w;
  vkGetPhysicalDeviceSurfaceSupportKHR := vkGetPhysicalDeviceSurfaceSupportKHR w;
  vkGetPhysicalDeviceSurfaceCapabilitiesKHR :=
    vkGetPhysicalDeviceSurfaceCapabilitiesKHR w;
  vkGetPhysicalDeviceSurfaceFormatsKHR := vkGetPhysicalDeviceSurfaceFormatsKHR w;
  vkCreateInstance := vkCreateInstance w;
  vkCreateSwapchainKHR := vkCreateSwapchainKHR w;
  findMatchingStrings := findMatchingStrings w;
  glfwGetRequiredInstanceExtensions := glfwGetRequiredInstanceExtensions w;
  helper_status := helper_status w;
  glfwWindowShouldClose := glfwWindowShouldClose w
|}.

Definition with_native_results (w : World) (instance swapchain : VkResult * Handle)
    : World := {|
  APPNAME := APPNAME w;
  malloc_ok := malloc_ok w;
  vkEnumeratePhysicalDevices := vkEnumeratePhysicalDevices w;
  vkGetPhysicalDeviceQueueFamilyProperties :=
    vkGetPhysicalDeviceQueueFamilyProperties w;
  vkGetPhysicalDeviceSurfaceSupportKHR := vkGetPhysicalDeviceSurfaceSupportKHR w;
  vkGetPhysicalDeviceSurfaceCapabilitiesKHR :=
    vkGetPhysicalDeviceSurfaceCapabilitiesKHR w;
  vkGetPhysicalDeviceSurfaceFormatsKHR := vkGetPhysicalDeviceSurfaceFormatsKHR w;
  vkCreateInstance := fun _ => instance;
  vkCreateSwapchainKHR := fun _ _ => swapchain;
  findMatchingStrings := findMatchingStrings w;
  glfwGetRequiredInstanceExtensions := glfwGetRequiredInstanceExtensions w;
  helper_status := helper_status w;
  glfwWindowShouldClose := glfwWindowShouldClose w
|}.

Definition window_800x600 : VkExtent2D := mkExtent 800 600.

Definition msg_invalid_device : Event :=
  EvLog FATAL "Invalid device to create swap chain\n" [].

Definition msg_swapchain_failed (res : VkResult) : Event :=
  EvLog ERROR "Failed to create swap chain, error code: %d" [res mod 2 ^ 32].

Definition msg_instance_failed (result : VkResult) : Event :=
  EvLog ERROR "Failed to create instance, error code: %d" [result mod 2 ^ 32].

(** Graphics and present on different families, on one family, and with the
    present family unresolved. *)
Definition indices_split : DeviceIndices := mkDeviceIndices true 0 true 0 true 1.
Definition indices_shared : DeviceIndices := mkDeviceIndices true 0 true 0 true 0.
Definition indices_no_present : DeviceIndices :=
  mkDeviceIndices true 0 true 0 false 0.

(** A surface no queue family of the device can present to. *)
Definition headless_world : World :=
  with_surface_support plain_world (fun _ _ _ => 0).

Definition msg_no_extension : Event :=
  EvLog FATAL "failed to find required extension\n" [].
Definition msg_no_layer : Event :=
  EvLog FATAL "failed to find required layer\n" [].

(** Every native creation call fails with [VK_ERROR_INITIALIZATION_FAILED]. *)
Definition failing_world : World :=
  with_native_results plain_world
    (VK_ERROR_INITIALIZATION_FAILED, VK_NULL_HANDLE)
    (VK_ERROR_INITIALIZATION_FAILED, VK_NULL_HANDLE).

Definition some_instance_info : InstanceInfo :=
  mkInstanceInfo 2 ["VK_KHR_surface"; "VK_EXT_debug_utils"]
    1 ["VK_LAYER_LUNARG_standard_validation"].

Definition families_bytes (w : World) (device : Handle) : Z :=
  Z.of_nat (List.length (vkGetPhysicalDeviceQueueFamilyProperties w device))
  * sizeof_VkQueueFamilyProperties.

(** A device whose two families are transfer-only, on a surface nobody can
    present to. *)
Definition transfer_only_world : World :=
  with_families headless_world
    (fun _ => [mkQueueFamily VK_QUEUE_TRANSFER_BIT 2;
               mkQueueFamily VK_QUEUE_TRANSFER_BIT 1]).

(** Family 0 computes only, family 1 draws. *)
Definition compute_first_world : World :=
  with_families plain_world
    (fun _ => [mkQueueFamily VK_QUEUE_COMPUTE_BIT 1;
               mkQueueFamily VK_QUEUE_GRAPHICS_BIT 1]).

(** Family 0 draws but is out of queues, family 1 has queues but only
    transfers. *)
Definition queueless_graphics_world : World :=
  with_families plain_world
    (fun _ => [mkQueueFamily VK_QUEUE_GRAPHICS_BIT 0;
               mkQueueFamily VK_QUEUE_TRANSFER_BIT 3]).

Definition graphics_and_compute : Z :=
  Z.lor VK_QUEUE_GRAPHICS_BIT VK_QUEUE_COMPUTE_BIT.

(** The test [createPhysicalDevice] applies to [arr[i]]: the call
    [getDeviceQueueIndex(arr[i], VK_QUEUE_GRAPHICS_BIT | VK_QUEUE_COMPUTE_BIT)]
    returns, and returns something other than -1. *)
Definition passes_selection (w : World) (device : Handle) : bool :=
  match outcome (getDeviceQueueIndex w device graphics_and_compute) with
  | Returned r => negb (r =? -1)
  | _ => false
  end.

(** One step of the selection loop: keep the device that passes. *)
Definition select_step (w : World) (selected device : Handle) : Handle :=
  if passes_selection w device then device else selected.

(** Three devices: 101 and 102 each have an all-purpose family, 103 has a
    graphics-only family. *)
Definition three_gpu_world : World :=
  with_devices
    (with_families plain_world
       (fun device =>
          if device =? 103 then [mkQueueFamily VK_QUEUE_GRAPHICS_BIT 1]
          else [mkQueueFamily all_queue_bits 1]))
    VK_SUCCESS [101; 102; 103].

(** Does the device have a queue family that supports graphics and compute. *)
Definition has_graphics_and_compute_family (w : World) (device : Handle) : bool :=
  existsb Spec.supports_graphics_and_compute
    (vkGetPhysicalDeviceQueueFamilyProperties w device).

(** One pass through the loop of [main]: the query that lets it in, then the
    body. *)
Definition main_loop_iteration : list Event :=
  [EvCall "glfwWindowShouldClose" ["pWindow"]; EvCall "glfwPollEvents" []].

Fixpoint iterations (n : nat) : list Event :=
  match n with
  | O => []
  | S n' => main_loop_iteration ++ iterations n'
  end.

(** Does a helper call pass [name] (or its address) as an argument. *)
Definition passes_argument (name : string) (e : Event) : bool :=
  match e with
  | EvCall _ args =>
      existsb (String.eqb name) args
      || existsb (String.eqb (String.append "&" name)) args
  | _ => false
  end.

(** ** More worlds and trace readers *)

(** A world whose [malloc] answers by [ok]. *)
Definition with_malloc (w : World) (ok : Z -> bool) : World := {|
  APPNAME := APPNAME w;
  malloc_ok := ok;
  vkEnumeratePhysicalDevices := vkEnumeratePhysicalDevices w;
  vkGetPhysicalDeviceQueueFamilyProperties :=
    vkGetPhysicalDeviceQueueFamilyProperties w;
  vkGetPhysicalDeviceSurfaceSupportKHR := vkGetPhysicalDeviceSurfaceSupportKHR w;
  vkGetPhysicalDeviceSurfaceCapabilitiesKHR :=
    vkGetPhysicalDeviceSurfaceCapabilitiesKHR w;
  vkGetPhysicalDeviceSurfaceFormatsKHR := vkGetPhysicalDeviceSurfaceFormatsKHR w;
  vkCreateInstance := vkCreateInstance w;
  vkCreateSwapchainKHR := vkCreateSwapchainKHR w;
  findMatchingStrings := findMatchingStrings w;
  glfwGetRequiredInstanceExtensions := glfwGetRequiredInstanceExtensions w;
  helper_status := helper_status w;
  glfwWindowShouldClose := glfwWindowShouldClose w
|}.

(** A world whose string matcher answers by [matcher]. *)
Definition with_matcher (w : World)
    (matcher : list string -> Z -> list string -> Z -> Z) : World := {|
  APPNAME := APPNAME w;
  malloc_ok := malloc_ok w;
  vkEnumeratePhysicalDevices := vkEnumeratePhysicalDevices w;
  vkGetPhysicalDeviceQueueFamilyProperties :=
    vkGetPhysicalDeviceQueueFamilyProperties w;
  vkGetPhysicalDeviceSurfaceSupportKHR := vkGetPhysicalDeviceSurfaceSupportKHR w;
  vkGetPhysicalDeviceSurfaceCapabilitiesKHR :=
    vkGetPhysicalDeviceSurfaceCapabilitiesKHR w;
  vkGetPhysicalDeviceSurfaceFormatsKHR := vkGetPhysicalDeviceSurfaceFormatsKHR w;
  vkCreateInstance := vkCreateInstance w;
  vkCreateSwapchainKHR := vkCreateSwapchainKHR w;
  findMatchingStrings := matcher;
  glfwGetRequiredInstanceExtensions := glfwGetRequiredInstanceExtensions w;
  helper_status := helper_status w;
  glfwWindowShouldClose := glfwWindowShouldClose w
|}.

(** A world whose [main] helpers answer by [status] and whose window
    answers by [closes]. *)
Definition with_main_answers (w : World)
    (status : string -> list string -> VkResult) (closes : nat -> bool)
    : World := {|
  APPNAME := APPNAME w;
  malloc_ok := malloc_ok w;
  vkEnumeratePhysicalDevices := vkEnumeratePhysicalDevices w;
  vkGetPhysicalDeviceQueueFamilyProperties :=
    vkGetPhysicalDeviceQueueFamilyProperties w;
  vkGetPhysicalDeviceSurfaceSupportKHR := vkGetPhysicalDeviceSurfaceSupportKHR w;
  vkGetPhysicalDeviceSurfaceCapabilitiesKHR :=
    vkGetPhysicalDeviceSurfaceCapabilitiesKHR w;
  vkGetPhysicalDeviceSurfaceFormatsKHR := vkGetPhysicalDeviceSurfaceFormatsKHR w;
  vkCreateInstance := vkCreateInstance w;
  vkCreateSwapchainKHR := vkCreateSwapchainKHR w;
  findMatchingStrings := findMatchingStrings w;
  glfwGetRequiredInstanceExtensions := glfwGetRequiredInstanceExtensions w;
  helper_status := status;
  glfwWindowShouldClose := closes
|}.

(** Number of queue families the device reports, as the [uint32_t] the
    code holds it in. *)
Definition family_count (w : World) (device : Handle) : Z :=
  Z.of_nat (List.length (vkGetPhysicalDeviceQueueFamilyProperties w device)).

(** Family [i] of the device, as the code reads [arr[i]]. *)
Definition family (w : World) (device : Handle) (i : Z) : VkQueueFamilyProperties :=
  nth (Z.to_nat i) (vkGetPhysicalDeviceQueueFamilyProperties w device)
    noQueueFamily.

Definition msg_no_device : Event :=
  EvLog FATAL "no Vulkan capable device found" [].
Definition msg_no_suitable_device : Event :=
  EvLog ERROR "no suitable Vulkan device found\n" [].
Definition msg_no_memory : Event :=
  EvLog FATAL "failed to allocate memory: %s" [].
Definition msg_no_indices : Event :=
  EvLog FATAL "unable to acquire indices\n" [].

(** Three families of which only the last can present; the first has the
    compute and transfer bits, the second is out of queues, the third draws. *)
Definition late_present_world : World :=
  with_surface_support
    (with_families plain_world
       (fun _ =>
          [mkQueueFamily (Z.lor VK_QUEUE_COMPUTE_BIT VK_QUEUE_TRANSFER_BIT) 0;
           mkQueueFamily VK_QUEUE_TRANSFER_BIT 0;
           mkQueueFamily VK_QUEUE_GRAPHICS_BIT 4]))
    (fun _ i _ => if i =? 2 then VK_TRUE else 0).

(** No allocation succeeds. *)
Definition out_of_memory_world : World := with_malloc plain_world (fun _ => false).

(** The bytes [main] asks for to hold its extension names. *)
Definition main_extension_bytes (w : World) : Z :=
  sizeof_pointer
  * ((1 + Z.of_nat (List.length (glfwGetRequiredInstanceExtensions w)))
     mod 2 ^ 32).

(** Did the three index queries of [main.c:70-75] all answer [VK_SUCCESS]. *)
Definition main_indices_ok (w : World) : bool :=
  (helper_status w "getDeviceQueueIndex"
     ["&graphicsIndex"; "physicalDevice"; "VK_QUEUE_GRAPHICS_BIT"] =? VK_SUCCESS)
  && (helper_status w "getDeviceQueueIndex"
        ["&computeIndex"; "physicalDevice"; "VK_QUEUE_COMPUTE_BIT"] =? VK_SUCCESS)
  && (helper_status w "getPresentQueueIndex"
        ["&presentIndex"; "physicalDevice"; "surface"] =? VK_SUCCESS).

(** The present query of [main] fails. *)
Definition no_present_index_world : World :=
  with_main_answers plain_world
    (fun callee _ =>
       if String.eqb callee "getPresentQueueIndex"
       then VK_ERROR_INITIALIZATION_FAILED else VK_SUCCESS)
    (glfwWindowShouldClose plain_world).

(** The window never asks to close. *)
Definition open_window_world : World :=
  with_main_answers plain_world (helper_status plain_world) (fun _ => false).

(** What follows the first call of [name] in a trace (nothing, when there
    is no such call). *)
Fixpoint after_call (name : string) (tr : list Event) : list Event :=
  match tr with
  | [] => []
  | e :: rest => if is_call name e then rest else after_call name rest
  end.

(** The constructor and destructor helpers [main] pairs up. *)
Definition main_pairs : list (string * string) :=
  [("glfwInit", "glfwTerminate");
   ("new_Instance", "delete_Instance");
   ("new_DebugCallback", "delete_DebugCallback");
   ("new_Device", "delete_Device");
   ("new_SwapChain", "delete_SwapChain");
   ("new_SwapChainImages", "delete_SwapChainImages");
   ("new_SwapChainImageViews", "delete_SwapChainImageViews");
   ("new_ShaderModule", "delete_ShaderModule");
   ("new_RenderPass", "delete_RenderPass");
   ("new_PipelineLayout", "delete_PipelineLayout");
   ("new_GraphicsPipeline", "delete_Pipeline");
   ("new_SwapChainFramebuffers", "delete_SwapChainFramebuffers");
   ("new_CommandPool", "delete_CommandPool");
   ("new_GraphicsCommandBuffers", "delete_GraphicsCommandBuffers");
   ("create_Semaphore", "delete_Semaphore")].

(** Is every helper of the first column called as often as its partner. *)
Definition balanced (pairs : list (string * string)) (tr : list Event) : bool :=
  forallb (fun p => Nat.eqb (calls_of (fst p) tr) (calls_of (snd p) tr)) pairs.

(** What [getDeviceQueueIndex] hands back once its array is allocated. *)
Definition queue_index_result (w : World) (device : Handle) (bit : Z) : Z :=
  let arr := vkGetPhysicalDeviceQueueFamilyProperties w device in
  match getDeviceQueueIndex_loop arr bit (List.length arr) 0 with
  | Some i => int32_of_uint32 (Z.of_nat i)
  | None => -1
  end.

(** What [getPresentQueueIndex] hands back once its array is allocated. *)
Definition present_index_result (w : World) (device surface : Handle) : Z :=
  let arr := vkGetPhysicalDeviceQueueFamilyProperties w device in
  match getPresentQueueIndex_loop w device surface (List.length arr) 0 with
  | Some i => int32_of_uint32 (Z.of_nat i)
  | None => -1
  end.

(** Two devices, each with transfer-only families. *)
Definition transfer_only_gpus_world : World :=
  with_devices transfer_only_world VK_SUCCESS [101; 102].

(** The enumeration of devices fails. *)
Definition no_enumeration_world : World :=
  with_devices plain_world VK_ERROR_INITIALIZATION_FAILED [].

(** The string matcher finds none of the requested names. *)
Definition nothing_matches_world : World :=
  with_matcher plain_world (fun _ _ _ _ => 0).

(** The objects [main] deletes during cleanup: the deleting helper and the
    variable that holds the object. *)
Definition main_deleted : list (string * string) :=
  [("delete_CommandPool", "commandPool");
   ("delete_SwapChainFramebuffers", "pSwapChainFramebuffers");
   ("delete_Pipeline", "graphicsPipeline");
   ("delete_PipelineLayout", "graphicsPipelineLayout");
   ("delete_RenderPass", "renderPass");
   ("delete_SwapChainImageViews", "pSwapChainImageViews");
   ("delete_SwapChainImages", "pSwapChainImages");
   ("delete_SwapChain", "swapChain");
   ("delete_Device", "device");
   ("delete_DebugCallback", "callback");
   ("delete_Instance", "instance")].

(** Is no variable of the second column handed to a call that follows the
    first call of its deleting helper. *)
Definition unused_after_delete (pairs : list (string * string))
    (tr : list Event) : bool :=
  forallb
    (fun p => negb (existsb (passes_argument (snd p)) (after_call (fst p) tr)))
    pairs.

(** A world that takes [main] down the same path through its setup as [w]:
    out of memory, an index query failing, or all well. *)
Definition setup_path (w : World) : World :=
  if negb (malloc_ok w (main_extension_bytes w)) then out_of_memory_world
  else if negb (main_indices_ok w) then no_present_index_world
  else plain_world.

(** The calls of a setup of [main] that meets no failure. *)
Definition main_setup_trace : list Event := fst (main_setup plain_world).

(** ** [vulkan_methods.c]: debug messenger and logical device *)

Definition VK_FALSE : Z := 0.
Definition VK_STRUCTURE_TYPE_DEVICE_QUEUE_CREATE_INFO : Z := 2.
Definition VK_STRUCTURE_TYPE_DEVICE_CREATE_INFO : Z := 3.
Definition VK_STRUCTURE_TYPE_DEBUG_UTILS_MESSENGER_CREATE_INFO_EXT : Z := 1000128004.
Definition VK_DEBUG_UTILS_MESSAGE_SEVERITY_VERBOSE_BIT_EXT : Z := 1.
Definition VK_DEBUG_UTILS_MESSAGE_SEVERITY_INFO_BIT_EXT : Z := 16.
Definition VK_DEBUG_UTILS_MESSAGE_SEVERITY_WARNING_BIT_EXT : Z := 256.
Definition VK_DEBUG_UTILS_MESSAGE_SEVERITY_ERROR_BIT_EXT : Z := 4096.
Definition VK_DEBUG_UTILS_MESSAGE_SEVERITY_FLAG_BITS_MAX_ENUM_EXT : Z := 2147483647.
Definition VK_DEBUG_UTILS_MESSAGE_TYPE_GENERAL_BIT_EXT : Z := 1.
Definition VK_DEBUG_UTILS_MESSAGE_TYPE_VALIDATION_BIT_EXT : Z := 2.
Definition VK_DEBUG_UTILS_MESSAGE_TYPE_PERFORMANCE_BIT_EXT : Z := 4.

(** The bits of the [float] constant [1.0f] (IEEE-754 single precision). *)
Definition float_1_0 : Z := 1065353216.

(** Number of [VkBool32] members of [VkPhysicalDeviceFeatures]. *)
Definition VkPhysicalDeviceFeatures_members : nat := 55.

(** The fields of [struct DeviceInfo] that [createLogicalDevice] reads. *)
Record DeviceInfo := mkDeviceInfo {
  di_extensionCount : Z;
  di_ppExtensionNames : list string;
  di_layerCount : Z;
  di_ppLayerNames : list string
}.

Record VkDeviceQueueCreateInfo := mkDeviceQueueCreateInfo {
  dq_sType : Z;
  dq_queueFamilyIndex : Z;
  dq_queueCount : Z;
  dq_pQueuePriorities : list Z
}.

Record VkDeviceCreateInfo := mkDeviceCreateInfo {
  dc_sType : Z;
  dc_pQueueCreateInfos : list VkDeviceQueueCreateInfo;
  dc_queueCreateInfoCount : Z;
  dc_pEnabledFeatures : list Z;
  dc_enabledExtensionCount : Z;
  dc_ppEnabledExtensionNames : list string;
  dc_enabledLayerCount : Z;
  dc_ppEnabledLayerNames : list string
}.

(** [pfnUserCallback] is always [debugCallback] and is kept by name. *)
Record VkDebugUtilsMessengerCreateInfoEXT := mkDebugMessengerCreateInfo {
  dm_sType : Z;
  dm_messageSeverity : Z;
  dm_messageType : Z;
  dm_pfnUserCallback : string
}.

(** The answers of the Vulkan loader to the calls of these functions. *)
Record Loader := mkLoader {
  vkCreateDevice : Handle -> VkDeviceCreateInfo -> VkResult * Handle;
  (** is the function pointer [vkGetInstanceProcAddr] returns non-null *)
  vkGetInstanceProcAddr : Handle -> string -> bool;
  vkCreateDebugUtilsMessengerEXT :
    Handle -> VkDebugUtilsMessengerCreateInfoEXT -> VkResult * Handle
}.

(** The [switch] of [debugCallback] over the message severity. *)
Definition debugCallback_errcode (messageSeverity : Z) : LogLevel :=
  if messageSeverity =? VK_DEBUG_UTILS_MESSAGE_SEVERITY_VERBOSE_BIT_EXT then INFO
  else if messageSeverity =? VK_DEBUG_UTILS_MESSAGE_SEVERITY_INFO_BIT_EXT then INFO
  else if messageSeverity =? VK_DEBUG_UTILS_MESSAGE_SEVERITY_WARNING_BIT_EXT then WARN
  else if messageSeverity =? VK_DEBUG_UTILS_MESSAGE_SEVERITY_ERROR_BIT_EXT then ERROR
  else if messageSeverity =? VK_DEBUG_UTILS_MESSAGE_SEVERITY_FLAG_BITS_MAX_ENUM_EXT
  then UNKNOWN
  else UNKNOWN.

(** [debugCallback]; the text of the message goes to the log line and is
    not kept in the event. *)
Definition debugCallback (messageSeverity messageType : Z) (pMessage : string)
    : Run Z :=
  let errcode := debugCallback_errcode messageSeverity in
  errLog errcode "Vulkan validation layer: %s\n" [] ;;
  ret VK_FALSE.

Section Loaded.

Variable w : World.
Variable l : Loader.

(** The create info filled at [vulkan_methods.c:110-118]. *)
Definition createDebugCallback_createInfo : VkDebugUtilsMessengerCreateInfoEXT :=
  {| dm_sType := VK_STRUCTURE_TYPE_DEBUG_UTILS_MESSENGER_CREATE_INFO_EXT;
     dm_messageSeverity :=
       Z.lor (Z.lor VK_DEBUG_UTILS_MESSAGE_SEVERITY_VERBOSE_BIT_EXT
                VK_DEBUG_UTILS_MESSAGE_SEVERITY_WARNING_BIT_EXT)
         VK_DEBUG_UTILS_MESSAGE_SEVERITY_ERROR_BIT_EXT;
     dm_messageType :=
       Z.lor (Z.lor VK_DEBUG_UTILS_MESSAGE_TYPE_GENERAL_BIT_EXT
                VK_DEBUG_UTILS_MESSAGE_TYPE_VALIDATION_BIT_EXT)
         VK_DEBUG_UTILS_MESSAGE_TYPE_PERFORMANCE_BIT_EXT;
     dm_pfnUserCallback := "debugCallback" |}.

Definition createDebugCallback (instance : Handle) : Run Handle :=
  let createInfo := createDebugCallback_createInfo in
  (* Returns a function pointer *)
  let func := vkGetInstanceProcAddr l instance "vkCreateDebugUtilsMessengerEXT" in
  when (negb func)
    (errLog FATAL "failed to find extension function\n" [] ;; hardExit) ;;
  call "vkCreateDebugUtilsMessengerEXT"
    ["instance"; "&createInfo"; "NULL"; "&callback"] ;;
  let result := fst (vkCreateDebugUtilsMessengerEXT l instance createInfo) in
  let callback := snd (vkCreateDebugUtilsMessengerEXT l instance createInfo) in
  when (negb (result =? VK_SUCCESS))
    (errLog ERROR "Failed to create debug callback, error code: %d"
       [result mod 2 ^ 32] ;;
     hardExit) ;;
  ret callback.

Definition destroyDebugCallback (instance callback : Handle) : Run unit :=
  let func := vkGetInstanceProcAddr l instance "vkDestroyDebugUtilsMessengerEXT" in
  when func
    (call "vkDestroyDebugUtilsMessengerEXT" ["instance"; "callback"; "NULL"]).

(** The create infos filled at [vulkan_methods.c:431-448]. *)
Definition createLogicalDevice_createInfo (deviceQueueIndex : Z)
    (enabledExtensionCount : Z) (ppEnabledExtensionNames : list string)
    (enabledLayerCount : Z) (ppEnabledLayerNames : list string)
    : VkDeviceCreateInfo :=
  let deviceFeatures := repeat 0 VkPhysicalDeviceFeatures_members in
  let queueCreateInfo :=
    {| dq_sType := VK_STRUCTURE_TYPE_DEVICE_QUEUE_CREATE_INFO;
       dq_queueFamilyIndex := deviceQueueIndex;
       dq_queueCount := 1;
       dq_pQueuePriorities := [float_1_0] |} in
  {| dc_sType := VK_STRUCTURE_TYPE_DEVICE_CREATE_INFO;
     dc_pQueueCreateInfos := [queueCreateInfo];
     dc_queueCreateInfoCount := 1;
     dc_pEnabledFeatures := deviceFeatures;
     dc_enabledExtensionCount := enabledExtensionCount;
     dc_ppEnabledExtensionNames := ppEnabledExtensionNames;
     dc_enabledLayerCount := enabledLayerCount;
     dc_ppEnabledLayerNames := ppEnabledLayerNames |}.

Definition createLogicalDevice (deviceInfo : DeviceInfo)
    (physicalDevice : Handle) (deviceQueueIndex : Z)
    (enabledExtensionCount : Z) (ppEnabledExtensionNames : list string)
    (enabledLayerCount : Z) (ppEnabledLayerNames : list string) : Run Handle :=
  (* check layers and extensions *)
  let matchnum :=
    findMatchingStrings w (di_ppExtensionNames deviceInfo)
      (di_extensionCount deviceInfo) ppEnabledExtensionNames
      enabledExtensionCount in
  when (negb (matchnum =? enabledExtensionCount))
    (errLog FATAL "failed to find required device extension\n" [] ;; hardExit) ;;
  let matchnum :=
    findMatchingStrings w (di_ppLayerNames deviceInfo)
      (di_layerCount deviceInfo) ppEnabledLayerNames enabledLayerCount in
  when (negb (matchnum =? enabledLayerCount))
    (errLog FATAL "failed to find required device layer\n" [] ;; hardExit) ;;
  let createInfo :=
    createLogicalDevice_createInfo deviceQueueIndex
      enabledExtensionCount ppEnabledExtensionNames
      enabledLayerCount ppEnabledLayerNames in
  call "vkCreateDevice" ["physicalDevice"; "&createInfo"; "NULL"; "&device"] ;;
  let res := fst (vkCreateDevice l physicalDevice createInfo) in
  let device := snd (vkCreateDevice l physicalDevice createInfo) in
  when (negb (res =? VK_SUCCESS))
    (errLog ERROR "Failed to create device, error code: %d" [res mod 2 ^ 32] ;;
     hardExit) ;;
  ret device.

End Loaded.

(** A loader that has the debug utilities and creates whatever is asked. *)
Definition plain_loader : Loader := {|
  vkCreateDevice := fun _ _ => (VK_SUCCESS, 21);
  vkGetInstanceProcAddr := fun _ _ => true;
  vkCreateDebugUtilsMessengerEXT := fun _ _ => (VK_SUCCESS, 31)
|}.

(** A loader without the debug utilities extension. *)
Definition no_debug_utils_loader : Loader := {|
  vkCreateDevice := fun _ _ => (VK_SUCCESS, 21);
  vkGetInstanceProcAddr := fun _ _ => false;
  vkCreateDebugUtilsMessengerEXT := fun _ _ => (VK_SUCCESS, 31)
|}.

(** A loader whose creation calls fail. *)
Definition failing_loader : Loader := {|
  vkCreateDevice := fun _ _ => (VK_ERROR_INITIALIZATION_FAILED, VK_NULL_HANDLE);
  vkGetInstanceProcAddr := fun _ _ => true;
  vkCreateDebugUtilsMessengerEXT :=
    fun _ _ => (VK_ERROR_INITIALIZATION_FAILED, VK_NULL_HANDLE)
|}.

Definition some_device_info : DeviceInfo :=
  mkDeviceInfo 1 ["VK_KHR_swapchain"] 1 ["VK_LAYER_LUNARG_standard_validation"].

Definition msg_no_device_extension : Event :=
  EvLog FATAL "failed to find required device extension\n" [].
Definition msg_no_device_layer : Event :=
  EvLog FATAL "failed to find required device layer\n" [].
Definition msg_device_failed (res : VkResult) : Event :=
  EvLog ERROR "Failed to create device, error code: %d" [res mod 2 ^ 32].
Definition msg_no_extension_function : Event :=
  EvLog FATAL "failed to find extension function\n" [].
Definition msg_debug_callback_failed (result : VkResult) : Event :=
  EvLog ERROR "Failed to create debug callback, error code: %d"
    [result mod 2 ^ 32].
Definition call_vkCreateDevice : Event :=
  EvCall "vkCreateDevice" ["physicalDevice"; "&createInfo"; "NULL"; "&device"].
Definition call_vkCreateDebugUtilsMessengerEXT : Event :=
  EvCall "vkCreateDebugUtilsMessengerEXT"
    ["instance"; "&createInfo"; "NULL"; "&callback"].

(** * Properties of the code *)

(** ** Reading a trace *)

Lemma swapchain_requests_app tr1 tr2 :
  swapchain_requests (tr1 ++ tr2) = swapchain_requests tr1 ++ swapchain_requests tr2.
Proof.
  induction tr1 as [|e tr1 IH]; simpl; [reflexivity|].
  destruct e; simpl; rewrite IH; reflexivity.
Qed.

(** ** Swap-chain construction *)

(** The whole run of [createSwapChain], in closed form. *)
Lemma createSwapChain_run w old dev pd surf ext di :
  createSwapChain w old dev pd surf ext di =
  let ci := createSwapChain_createInfo w old pd surf ext di in
  let res := fst (vkCreateSwapchainKHR w dev ci) in
  ((if negb (hasGraphics di) || negb (hasPresent di)
    then [msg_invalid_device] else [])
   ++ EvCreateSwapchain dev ci
   :: (if res =? VK_SUCCESS then [] else [msg_swapchain_failed res]),
   if res =? VK_SUCCESS
   then Returned (snd (vkCreateSwapchainKHR w dev ci))
   else Exited EXIT_FAILURE).
Proof.
  unfold createSwapChain. cbn.
  destruct (negb (hasGraphics di) || negb (hasPresent di));
    destruct (fst (vkCreateSwapchainKHR _ _ _) =? VK_SUCCESS); reflexivity.
Qed.

Lemma createSwapChain_requests w old dev pd surf ext di :
  swapchain_requests (trace (createSwapChain w old dev pd surf ext di)) =
  [createSwapChain_createInfo w old pd surf ext di].
Proof.
  rewrite createSwapChain_run. cbv zeta. unfold trace, fst at 1.
  rewrite swapchain_requests_app.
  destruct (negb (hasGraphics di) || negb (hasPresent di));
    destruct (fst (vkCreateSwapchainKHR _ _ _) =? VK_SUCCESS); reflexivity.
Qed.

(** C1: whatever device indices [createSwapChain] is given, it hands exactly
    one creation request to [vkCreateSwapchainKHR]; when the graphics and
    present family indices differ the request asks for concurrent sharing
    and lists exactly those two indices, and when they are equal it asks
    for exclusive sharing and lists none. *)
Theorem createSwapChain_sharing_mode w old dev pd surf ext di :
  exists ci,
    swapchain_requests (trace (createSwapChain w old dev pd surf ext di)) = [ci]
    /\ (graphicsIndex di <> presentIndex di ->
        imageSharingMode ci = VK_SHARING_MODE_CONCURRENT
        /\ queueFamilyIndexCount ci = 2
        /\ pQueueFamilyIndices ci = Some [graphicsIndex di; presentIndex di])
    /\ (graphicsIndex di = presentIndex di ->
        imageSharingMode ci = VK_SHARING_MODE_EXCLUSIVE
        /\ queueFamilyIndexCount ci = 0
        /\ pQueueFamilyIndices ci = None).
Proof.
  exists (createSwapChain_createInfo w old pd surf ext di).
  split; [apply createSwapChain_requests|].
  unfold createSwapChain_createInfo; cbn.
  split; intros Hidx.
  - apply Z.eqb_neq in Hidx. rewrite Hidx. cbn. auto.
  - apply Z.eqb_eq in Hidx. rewrite Hidx. cbn. auto.
Qed.

Lemma createSwapChain_sharing_mode_witness :
  (exists ci,
      swapchain_requests
        (trace (createSwapChain plain_world 0 5 101 9 window_800x600 indices_split))
      = [ci]
      /\ imageSharingMode ci = VK_SHARING_MODE_CONCURRENT
      /\ queueFamilyIndexCount ci = 2
      /\ pQueueFamilyIndices ci = Some [0; 1])
  /\ (exists ci,
      swapchain_requests
        (trace (createSwapChain plain_world 0 5 101 9 window_800x600 indices_shared))
      = [ci]
      /\ imageSharingMode ci = VK_SHARING_MODE_EXCLUSIVE
      /\ queueFamilyIndexCount ci = 0
      /\ pQueueFamilyIndices ci = None).
Proof.
  split.
  - destruct (createSwapChain_sharing_mode plain_world 0 5 101 9 window_800x600
                indices_split) as (ci & Hreq & Hdiffer & _).
    exists ci. split; [exact Hreq|]. apply Hdiffer. vm_compute. discriminate.
  - destruct (createSwapChain_sharing_mode plain_world 0 5 101 9 window_800x600
                indices_shared) as (ci & Hreq & _ & Hsame).
    exists ci. split; [exact Hreq|]. apply Hsame. reflexivity.
Defined.

(** C3, as the code has it: whatever the surface capabilities report,
    [createSwapChain] requests a minimum image count of exactly 2. *)
Theorem createSwapChain_image_count_fixed w old dev pd surf ext di :
  exists ci,
    swapchain_requests (trace (createSwapChain w old dev pd surf ext di)) = [ci]
    /\ minImageCount ci = 2.
Proof.
  exists (createSwapChain_createInfo w old pd surf ext di).
  split; [apply createSwapChain_requests | reflexivity].
Qed.

(** C3 as stated fails: on a surface that reports between 3 and 4 images the
    request is 2, which is neither the minimum plus one clamped to the
    maximum (4) nor inside the reported range. *)
Lemma createSwapChain_image_count_counterexample :
  exists ci,
    swapchain_requests
      (trace (createSwapChain plain_world 0 5 101 9 window_800x600 indices_shared))
    = [ci]
    /\ vkGetPhysicalDeviceSurfaceCapabilitiesKHR plain_world 101 9
       = mkCapabilities 3 4 1
    /\ Spec.image_count (mkCapabilities 3 4 1) = 4
    /\ minImageCount ci = 2
    /\ minImageCount ci <> Spec.image_count (mkCapabilities 3 4 1)
    /\ ~ (3 <= minImageCount ci <= 4).
Proof.
  eexists. split; [apply createSwapChain_requests|].
  cbn. repeat split; try reflexivity; try discriminate. lia.
Qed.

(** C6, as the code has it: [createSwapChain] always requests
    [VK_FORMAT_B8G8R8A8_UNORM] with [VK_COLOR_SPACE_SRGB_NONLINEAR_KHR],
    whatever formats the device reports for the surface. *)
Theorem createSwapChain_format_fixed w old dev pd surf ext di :
  exists ci,
    swapchain_requests (trace (createSwapChain w old dev pd surf ext di)) = [ci]
    /\ imageFormat ci = VK_FORMAT_B8G8R8A8_UNORM
    /\ imageColorSpace ci = VK_COLOR_SPACE_SRGB_NONLINEAR_KHR.
Proof.
  exists (createSwapChain_createInfo w old pd surf ext di).
  split; [apply createSwapChain_requests | split; reflexivity].
Qed.

(** C6 as stated fails: the device of [plain_world] reports the single format
    R8G8B8A8/sRGB, so the specified choice is that format for every
    preferred pair (it either matches or is the fallback), while the request
    carries B8G8R8A8/sRGB. *)
Lemma createSwapChain_format_counterexample :
  exists ci,
    swapchain_requests
      (trace (createSwapChain plain_world 0 5 101 9 window_800x600 indices_shared))
    = [ci]
    /\ vkGetPhysicalDeviceSurfaceFormatsKHR plain_world 101 9
       = [mkSurfaceFormat VK_FORMAT_R8G8B8A8_UNORM VK_COLOR_SPACE_SRGB_NONLINEAR_KHR]
    /\ (forall preferred,
          Spec.choose_format preferred
            (vkGetPhysicalDeviceSurfaceFormatsKHR plain_world 101 9)
          = Some (mkSurfaceFormat VK_FORMAT_R8G8B8A8_UNORM
                    VK_COLOR_SPACE_SRGB_NONLINEAR_KHR))
    /\ mkSurfaceFormat (imageFormat ci) (imageColorSpace ci)
       <> mkSurfaceFormat VK_FORMAT_R8G8B8A8_UNORM VK_COLOR_SPACE_SRGB_NONLINEAR_KHR.
Proof.
  eexists. split; [apply createSwapChain_requests|].
  split; [reflexivity|]. split; [|cbn; discriminate].
  intros preferred. unfold Spec.choose_format. cbn.
  destruct (Spec.same_format preferred _); reflexivity.
Qed.

(** C4 fails on the code: [getDeviceIndices] reports no present family in
    [headless_world], and [createSwapChain], given those indices, writes the
    fatal log line, then issues the creation call all the same and returns
    its handle to the caller. *)
Theorem createSwapChain_unresolved_family_not_fatal :
  getDeviceIndices headless_world 101 9 = ([], Returned indices_no_present)
  /\ createSwapChain headless_world 0 5 101 9 window_800x600 indices_no_present
     = ([msg_invalid_device;
         EvCreateSwapchain 5
           (createSwapChain_createInfo headless_world 0 101 9 window_800x600
              indices_no_present)],
        Returned 77).
Proof. split; vm_compute; reflexivity. Qed.

(** The same for every world: with an unresolved family the fatal line is
    logged, the creation call follows it, and a successful call returns. *)
Lemma createSwapChain_ignores_unresolved w old dev pd surf ext di :
  hasGraphics di = false \/ hasPresent di = false ->
  (exists post,
      trace (createSwapChain w old dev pd surf ext di)
      = msg_invalid_device
        :: EvCreateSwapchain dev (createSwapChain_createInfo w old pd surf ext di)
        :: post)
  /\ (fst (vkCreateSwapchainKHR w dev
             (createSwapChain_createInfo w old pd surf ext di)) = VK_SUCCESS ->
      exists h, outcome (createSwapChain w old dev pd surf ext di) = Returned h).
Proof.
  intros Hmissing.
  assert (Hguard : negb (hasGraphics di) || negb (hasPresent di) = true).
  { destruct Hmissing as [H|H]; rewrite H; cbn; [reflexivity|].
    apply orb_true_r. }
  rewrite createSwapChain_run. cbv zeta. unfold trace, outcome; cbn [fst snd].
  rewrite Hguard. split.
  - eexists. cbn. reflexivity.
  - intros Hok. rewrite Hok. cbn. eauto.
Qed.

(** ** Native creation failures *)

(** The whole run of [createInstance], in closed form. *)
Lemma createInstance_run w info ec en lc ln :
  createInstance w info ec en lc ln =
  let ci := createInstance_createInfo w ec en lc ln in
  let result := fst (vkCreateInstance w ci) in
  if negb (findMatchingStrings w (ppExtensionNames info) (extensionCount info)
             en ec =? ec)
  then ([msg_no_extension], Exited EXIT_FAILURE)
  else if negb (findMatchingStrings w (ppLayerNames info) (layerCount info)
                  ln lc =? lc)
  then ([msg_no_layer], Exited EXIT_FAILURE)
  else if result =? VK_SUCCESS
  then ([EvCreateInstance ci], Returned (snd (vkCreateInstance w ci)))
  else ([EvCreateInstance ci; msg_instance_failed result], Exited EXIT_FAILURE).
Proof.
  unfold createInstance. cbn.
  destruct (negb (findMatchingStrings w (ppExtensionNames info) _ _ _ =? ec));
    [reflexivity|].
  destruct (negb (findMatchingStrings w (ppLayerNames info) _ _ _ =? lc));
    [reflexivity|].
  destruct (fst (vkCreateInstance _ _) =? VK_SUCCESS); reflexivity.
Qed.

Lemma createInstance_failure w info ec en lc ln ci :
  In (EvCreateInstance ci) (trace (createInstance w info ec en lc ln)) ->
  fst (vkCreateInstance w ci) <> VK_SUCCESS ->
  outcome (createInstance w info ec en lc ln) = Exited EXIT_FAILURE
  /\ exists pre,
      trace (createInstance w info ec en lc ln)
      = pre ++ [EvCreateInstance ci;
                msg_instance_failed (fst (vkCreateInstance w ci))].
Proof.
  rewrite createInstance_run. cbv zeta.
  destruct (negb (findMatchingStrings w (ppExtensionNames info) _ _ _ =? ec)).
  { cbn. intros [H|[]]; discriminate H. }
  destruct (negb (findMatchingStrings w (ppLayerNames info) _ _ _ =? lc)).
  { cbn. intros [H|[]]; discriminate H. }
  destruct (Z.eqb_spec (fst (vkCreateInstance w (createInstance_createInfo w ec en lc ln)))
              VK_SUCCESS) as [Hok|Hbad]; cbn.
  - intros [H|[]] Hfail. injection H as <-. contradiction.
  - intros [H|[H|[]]] _; [|discriminate H]. injection H as <-.
    split; [reflexivity|]. exists []. reflexivity.
Qed.

Lemma createSwapChain_failure w old dev pd surf ext di dev' ci :
  In (EvCreateSwapchain dev' ci)
     (trace (createSwapChain w old dev pd surf ext di)) ->
  fst (vkCreateSwapchainKHR w dev' ci) <> VK_SUCCESS ->
  outcome (createSwapChain w old dev pd surf ext di) = Exited EXIT_FAILURE
  /\ exists pre,
      trace (createSwapChain w old dev pd surf ext di)
      = pre ++ [EvCreateSwapchain dev' ci;
                msg_swapchain_failed (fst (vkCreateSwapchainKHR w dev' ci))].
Proof.
  rewrite createSwapChain_run. cbv zeta. unfold trace, outcome. cbn [fst snd].
  set (pre := if negb (hasGraphics di) || negb (hasPresent di)
              then [msg_invalid_device] else []).
  intros Hin Hfail.
  assert (Hcall : dev' = dev /\ ci = createSwapChain_createInfo w old pd surf ext di).
  { apply in_app_or in Hin. destruct Hin as [Hin|Hin].
    - subst pre. destruct (negb (hasGraphics di) || negb (hasPresent di));
        cbn in Hin; [destruct Hin as [H|[]]; discriminate H | destruct Hin].
    - destruct Hin as [H|Hin]; [injection H as <- <-; auto|].
      destruct (_ =? VK_SUCCESS); cbn in Hin; [destruct Hin|].
      destruct Hin as [H|[]]; discriminate H. }
  destruct Hcall as [-> ->].
  apply Z.eqb_neq in Hfail. rewrite Hfail.
  split; [reflexivity|]. exists pre. reflexivity.
Qed.

Lemma createInstance_returned w info ec en lc ln instance :
  outcome (createInstance w info ec en lc ln) = Returned instance ->
  exists ci,
    In (EvCreateInstance ci) (trace (createInstance w info ec en lc ln))
    /\ vkCreateInstance w ci = (VK_SUCCESS, instance).
Proof.
  rewrite createInstance_run. cbv zeta.
  destruct (negb (findMatchingStrings w (ppExtensionNames info) _ _ _ =? ec));
    [discriminate|].
  destruct (negb (findMatchingStrings w (ppLayerNames info) _ _ _ =? lc));
    [discriminate|].
  destruct (Z.eqb_spec (fst (vkCreateInstance w (createInstance_createInfo w ec en lc ln)))
              VK_SUCCESS) as [Hok|Hbad]; cbn; [|discriminate].
  intros [= <-]. eexists. split; [left; reflexivity|].
  rewrite <- Hok. apply surjective_pairing.
Qed.

Lemma createSwapChain_returned w old dev pd surf ext di swapChain :
  outcome (createSwapChain w old dev pd surf ext di) = Returned swapChain ->
  exists ci,
    In (EvCreateSwapchain dev ci)
       (trace (createSwapChain w old dev pd surf ext di))
    /\ vkCreateSwapchainKHR w dev ci = (VK_SUCCESS, swapChain).
Proof.
  rewrite createSwapChain_run. cbv zeta. unfold trace, outcome. cbn [fst snd].
  destruct (Z.eqb_spec
              (fst (vkCreateSwapchainKHR w dev
                      (createSwapChain_createInfo w old pd surf ext di)))
              VK_SUCCESS) as [Hok|Hbad]; [|discriminate].
  intros [= <-]. eexists. split.
  - apply in_or_app. right. left. reflexivity.
  - rewrite <- Hok. apply surjective_pairing.
Qed.

(** C5: whenever [createInstance] or [createSwapChain] has issued its native
    creation call and the call answers anything but [VK_SUCCESS], the run
    ends with that call, the error line carrying the result code, and
    [exit(EXIT_FAILURE)]; and a constructor that does return hands back the
    handle of a creation call that succeeded. *)
Theorem native_creation_failure_is_fatal w :
  (forall info ec en lc ln ci,
      In (EvCreateInstance ci) (trace (createInstance w info ec en lc ln)) ->
      fst (vkCreateInstance w ci) <> VK_SUCCESS ->
      outcome (createInstance w info ec en lc ln) = Exited EXIT_FAILURE
      /\ exists pre,
          trace (createInstance w info ec en lc ln)
          = pre ++ [EvCreateInstance ci;
                    msg_instance_failed (fst (vkCreateInstance w ci))])
  /\ (forall old dev pd surf ext di dev' ci,
      In (EvCreateSwapchain dev' ci)
         (trace (createSwapChain w old dev pd surf ext di)) ->
      fst (vkCreateSwapchainKHR w dev' ci) <> VK_SUCCESS ->
      outcome (createSwapChain w old dev pd surf ext di) = Exited EXIT_FAILURE
      /\ exists pre,
          trace (createSwapChain w old dev pd surf ext di)
          = pre ++ [EvCreateSwapchain dev' ci;
                    msg_swapchain_failed (fst (vkCreateSwapchainKHR w dev' ci))])
  /\ (forall info ec en lc ln instance,
      outcome (createInstance w info ec en lc ln) = Returned instance ->
      exists ci,
        In (EvCreateInstance ci) (trace (createInstance w info ec en lc ln))
        /\ vkCreateInstance w ci = (VK_SUCCESS, instance))
  /\ (forall old dev pd surf ext di swapChain,
      outcome (createSwapChain w old dev pd surf ext di) = Returned swapChain ->
      exists ci,
        In (EvCreateSwapchain dev ci)
           (trace (createSwapChain w old dev pd surf ext di))
        /\ vkCreateSwapchainKHR w dev ci = (VK_SUCCESS, swapChain)).
Proof.
  split; [|split; [|split]].
  - intros. now apply createInstance_failure.
  - intros. now apply createSwapChain_failure.
  - intros. now apply createInstance_returned.
  - intros. now apply createSwapChain_returned.
Qed.

Lemma native_creation_failure_is_fatal_witness :
  (outcome (createInstance failing_world some_instance_info
              1 ["VK_EXT_debug_utils"] 1 ["VK_LAYER_LUNARG_standard_validation"])
   = Exited EXIT_FAILURE
   /\ exists pre,
       trace (createInstance failing_world some_instance_info
                1 ["VK_EXT_debug_utils"] 1 ["VK_LAYER_LUNARG_standard_validation"])
       = pre ++ [EvCreateInstance
                   (createInstance_createInfo failing_world
                      1 ["VK_EXT_debug_utils"]
                      1 ["VK_LAYER_LUNARG_standard_validation"]);
                 msg_instance_failed VK_ERROR_INITIALIZATION_FAILED])
  /\ (outcome (createSwapChain failing_world 0 5 101 9 window_800x600 indices_shared)
      = Exited EXIT_FAILURE
      /\ exists pre,
          trace (createSwapChain failing_world 0 5 101 9 window_800x600
                   indices_shared)
          = pre ++ [EvCreateSwapchain 5
                      (createSwapChain_createInfo failing_world 0 101 9
                         window_800x600 indices_shared);
                    msg_swapchain_failed VK_ERROR_INITIALIZATION_FAILED]).
Proof.
  split.
  - apply (proj1 (native_creation_failure_is_fatal failing_world)
             some_instance_info 1 ["VK_EXT_debug_utils"]
             1 ["VK_LAYER_LUNARG_standard_validation"]
             (createInstance_createInfo failing_world
                1 ["VK_EXT_debug_utils"]
                1 ["VK_LAYER_LUNARG_standard_validation"])).
    + vm_compute. left. reflexivity.
    + vm_compute. discriminate.
  - apply (proj1 (proj2 (native_creation_failure_is_fatal failing_world))
             0 5 101 9 window_800x600 indices_shared 5
             (createSwapChain_createInfo failing_world 0 101 9
                window_800x600 indices_shared)).
    + vm_compute. left. reflexivity.
    + vm_compute. discriminate.
Defined.

(** ** Queue family queries *)

(** The whole run of [getDeviceQueueIndex], in closed form. *)
Lemma getDeviceQueueIndex_run w device bit :
  getDeviceQueueIndex w device bit =
  let arr := vkGetPhysicalDeviceQueueFamilyProperties w device in
  if malloc_ok w (families_bytes w device)
  then ([], Returned
              match getDeviceQueueIndex_loop arr bit (List.length arr) 0 with
              | Some i => int32_of_uint32 (Z.of_nat i)
              | None => -1
              end)
  else ([EvPrintError], Exited EXIT_FAILURE).
Proof.
  unfold getDeviceQueueIndex, families_bytes. cbn.
  destruct (malloc_ok w _); cbn; [|reflexivity].
  destruct (getDeviceQueueIndex_loop _ _ _ _); reflexivity.
Qed.

Lemma getPresentQueueIndex_run w device surface :
  getPresentQueueIndex w device surface =
  let arr := vkGetPhysicalDeviceQueueFamilyProperties w device in
  if malloc_ok w (families_bytes w device)
  then ([], Returned
              match getPresentQueueIndex_loop w device surface (List.length arr) 0 with
              | Some i => int32_of_uint32 (Z.of_nat i)
              | None => -1
              end)
  else ([EvPrintError], Exited EXIT_FAILURE).
Proof.
  unfold getPresentQueueIndex, families_bytes. cbn.
  destruct (malloc_ok w _); cbn; [|reflexivity].
  destruct (getPresentQueueIndex_loop _ _ _ _ _); reflexivity.
Qed.

(** The loop of [getDeviceQueueIndex] looks at the flags of family 0 only:
    when they miss the mask no index is found, whatever the other families
    offer. *)
Lemma getDeviceQueueIndex_loop_family0 arr bit remaining i :
  Z.land (queueFlags (nth 0 arr noQueueFamily)) bit = 0 ->
  getDeviceQueueIndex_loop arr bit remaining i = None.
Proof.
  intros Hflags. revert i.
  induction remaining as [|remaining IH]; intros i; cbn; [reflexivity|].
  rewrite Hflags, Z.eqb_refl, andb_false_r. apply IH.
Qed.

Lemma getPresentQueueIndex_loop_none w device surface remaining i :
  (forall j, (i <= j < i + remaining)%nat ->
     vkGetPhysicalDeviceSurfaceSupportKHR w device (Z.of_nat j) surface = 0) ->
  getPresentQueueIndex_loop w device surface remaining i = None.
Proof.
  revert i.
  induction remaining as [|remaining IH]; intros i Hnone; cbn; [reflexivity|].
  rewrite (Hnone i) by lia. cbn. apply IH.
  intros j Hj. apply Hnone. lia.
Qed.

(** Provided the array for the family properties could be allocated,
    a device none of whose queue families has a flag of the required mask
    makes [getDeviceQueueIndex] return -1 to its caller, and a device none
    of whose queue families can present to the surface makes
    [getPresentQueueIndex] return -1 to its caller; neither run ends the
    process or logs anything. *)
Theorem queue_queries_report_not_found w device :
  malloc_ok w (families_bytes w device) = true ->
  (forall bit,
      (forall f, In f (vkGetPhysicalDeviceQueueFamilyProperties w device) ->
                 Z.land (queueFlags f) bit = 0) ->
      getDeviceQueueIndex w device bit = ([], Returned (-1)))
  /\ (forall surface,
      (forall i,
          (i < List.length (vkGetPhysicalDeviceQueueFamilyProperties w device))%nat ->
          vkGetPhysicalDeviceSurfaceSupportKHR w device (Z.of_nat i) surface = 0) ->
      getPresentQueueIndex w device surface = ([], Returned (-1))).
Proof.
  intros Halloc. split.
  - intros bit Hnone. rewrite getDeviceQueueIndex_run. cbv zeta.
    rewrite Halloc, getDeviceQueueIndex_loop_family0; [reflexivity|].
    destruct (vkGetPhysicalDeviceQueueFamilyProperties w device) as [|f0 rest];
      cbn; [reflexivity|].
    apply Hnone. left. reflexivity.
  - intros surface Hnone. rewrite getPresentQueueIndex_run. cbv zeta.
    rewrite Halloc, getPresentQueueIndex_loop_none; [reflexivity|].
    intros j Hj. apply Hnone. lia.
Qed.

Lemma queue_queries_report_not_found_witness :
  getDeviceQueueIndex transfer_only_world 101
    (Z.lor VK_QUEUE_GRAPHICS_BIT VK_QUEUE_COMPUTE_BIT) = ([], Returned (-1))
  /\ getPresentQueueIndex transfer_only_world 101 9 = ([], Returned (-1)).
Proof.
  destruct (queue_queries_report_not_found transfer_only_world 101 eq_refl)
    as [Hqueue Hpresent].
  split.
  - apply Hqueue. intros f [<-|[<-|[]]]; reflexivity.
  - apply Hpresent. intros i _. reflexivity.
Defined.

(** C7 fails on the code for [getDeviceQueueIndex]: in
    [queueless_graphics_world] no queue family satisfies the graphics mask
    (family 0 has the bit but no queue, family 1 has queues but not the
    bit), yet the call returns index 1, because the loop tests the flags of
    family 0 at every index; and for the graphics-only device 103 of
    [three_gpu_world], which has no family supporting graphics and compute,
    the call with the graphics-and-compute mask returns index 0. *)
Theorem getDeviceQueueIndex_index_without_family :
  vkGetPhysicalDeviceQueueFamilyProperties queueless_graphics_world 101
  = [mkQueueFamily VK_QUEUE_GRAPHICS_BIT 0; mkQueueFamily VK_QUEUE_TRANSFER_BIT 3]
  /\ Spec.findQueueFamily
       (vkGetPhysicalDeviceQueueFamilyProperties queueless_graphics_world 101)
       VK_QUEUE_GRAPHICS_BIT 0 = None
  /\ Z.land (queueFlags (family queueless_graphics_world 101 1))
       VK_QUEUE_GRAPHICS_BIT = 0
  /\ getDeviceQueueIndex queueless_graphics_world 101 VK_QUEUE_GRAPHICS_BIT
     = ([], Returned 1)
  /\ has_graphics_and_compute_family three_gpu_world 103 = false
  /\ getDeviceQueueIndex three_gpu_world 103 graphics_and_compute
     = ([], Returned 0).
Proof. repeat split. Qed.

(** C2 fails on the code: with a compute-only family 0 and a graphics family
    1, the first family whose own flags carry the graphics bit is family 1,
    but [getDeviceQueueIndex] tests the flags of family 0 at every index and
    returns -1. *)
Theorem getDeviceQueueIndex_tests_family0 :
  vkGetPhysicalDeviceQueueFamilyProperties compute_first_world 101
  = [mkQueueFamily VK_QUEUE_COMPUTE_BIT 1; mkQueueFamily VK_QUEUE_GRAPHICS_BIT 1]
  /\ Spec.findQueueFamily
       (vkGetPhysicalDeviceQueueFamilyProperties compute_first_world 101)
       VK_QUEUE_GRAPHICS_BIT 0 = Some 1%nat
  /\ getDeviceQueueIndex compute_first_world 101 VK_QUEUE_GRAPHICS_BIT
     = ([], Returned (-1)).
Proof. repeat split. Qed.

(** ** Physical device selection *)

Lemma createPhysicalDevice_loop_run w arr selected :
  (forall x, In x arr -> malloc_ok w (families_bytes w x) = true) ->
  createPhysicalDevice_loop w arr selected
  = ([], Returned (fold_left (select_step w) arr selected)).
Proof.
  revert selected.
  induction arr as [|d arr IH]; intros selected Halloc; [reflexivity|].
  cbn [createPhysicalDevice_loop fold_left].
  assert (Hrest : forall x, In x arr -> malloc_ok w (families_bytes w x) = true)
    by (intros x Hx; apply Halloc; right; exact Hx).
  unfold select_step at 2, passes_selection, graphics_and_compute.
  rewrite getDeviceQueueIndex_run. cbv zeta.
  rewrite (Halloc d (or_introl eq_refl)).
  cbn. unfold Run_bind. cbn. rewrite IH by exact Hrest. reflexivity.
Qed.





(** ** The window loop and the cleanup of [main] *)

Lemma calls_of_app name tr1 tr2 :
  calls_of name (tr1 ++ tr2) = (calls_of name tr1 + calls_of name tr2)%nat.
Proof. unfold calls_of. rewrite filter_app, length_app. reflexivity. Qed.

Lemma calls_of_iterations name n :
  calls_of name (iterations n) = (n * calls_of name main_loop_iteration)%nat.
Proof.
  induction n as [|n IH]; [reflexivity|].
  cbn [iterations]. rewrite calls_of_app, IH. cbn [Nat.mul]. reflexivity.
Qed.

(** The loop started at query [k], when the window closes [n] queries later. *)
Lemma main_loop_run w n : forall k fuel,
  (forall j, (k <= j < k + n)%nat -> glfwWindowShouldClose w j = false) ->
  glfwWindowShouldClose w (k + n) = true ->
  (n < fuel)%nat ->
  main_loop w fuel k
  = (iterations n ++ [EvCall "glfwWindowShouldClose" ["pWindow"]], Returned tt).
Proof.
  induction n as [|n IH]; intros k fuel Hopen Hclose Hfuel;
    (destruct fuel as [|fuel]; [lia|]); cbn [main_loop].
  - rewrite Nat.add_0_r in Hclose. rewrite Hclose. reflexivity.
  - rewrite (Hopen k) by lia.
    rewrite (IH (S k) fuel).
    + reflexivity.
    + intros j Hj. apply Hopen. lia.
    + rewrite <- Hclose. f_equal. lia.
    + lia.
Qed.

(** C8, as the code has it: when the window asks to close at query number
    [n], the loop of [main] makes exactly [n] passes, each of them one
    [glfwWindowShouldClose] followed by one [glfwPollEvents] and nothing
    else; no pass calls the draw operation [drawFrame]. *)
Theorem main_loop_only_polls w n fuel :
  (forall j, (j < n)%nat -> glfwWindowShouldClose w j = false) ->
  glfwWindowShouldClose w n = true ->
  (n < fuel)%nat ->
  main_loop w fuel 0
  = (iterations n ++ [EvCall "glfwWindowShouldClose" ["pWindow"]], Returned tt)
  /\ trace main_loop_body = [EvCall "glfwPollEvents" []]
  /\ calls_of "glfwPollEvents" (trace (main_loop w fuel 0)) = n
  /\ calls_of "drawFrame" (trace (main_loop w fuel 0)) = 0%nat.
Proof.
  intros Hopen Hclose Hfuel.
  assert (Hrun := main_loop_run w n 0 fuel).
  cbn [Nat.add] in Hrun.
  rewrite Hrun; [|intros j Hj; apply Hopen; lia|exact Hclose|exact Hfuel].
  unfold trace. cbn [fst].
  rewrite !calls_of_app, !calls_of_iterations.
  repeat split; cbn; lia.
Qed.

Lemma main_loop_only_polls_witness :
  main_loop plain_world 3 0
  = (iterations 2 ++ [EvCall "glfwWindowShouldClose" ["pWindow"]], Returned tt)
  /\ trace main_loop_body = [EvCall "glfwPollEvents" []]
  /\ calls_of "glfwPollEvents" (trace (main_loop plain_world 3 0)) = 2%nat
  /\ calls_of "drawFrame" (trace (main_loop plain_world 3 0)) = 0%nat.
Proof.
  apply (main_loop_only_polls plain_world 2 3).
  - intros j Hj. destruct j as [|[|j]]; [reflexivity|reflexivity|lia].
  - reflexivity.
  - lia.
Defined.

(** C8 as stated fails: in [plain_world] the loop makes two passes and
    [main] runs to its end, but neither pass calls [drawFrame]; the claim
    asks for one call in each. *)
Lemma main_loop_draw_counterexample :
  main_loop plain_world 3 0
  = (iterations 2 ++ [EvCall "glfwWindowShouldClose" ["pWindow"]], Returned tt)
  /\ calls_of "drawFrame" main_loop_iteration = 0%nat
  /\ calls_of "drawFrame" (trace (main_loop plain_world 3 0)) = 0%nat
  /\ calls_of "drawFrame" (trace (main plain_world 3)) = 0%nat
  /\ outcome (main plain_world 3) = Returned EXIT_SUCCESS.
Proof. repeat split. Qed.

(** C9 fails on the code: [main] creates the surface once and runs to its
    end, its cleanup destroys the instance, yet no call of the cleanup
    destroys the surface ([delete_Surface] of [vulkan_utils.h], or any call
    that is handed the surface) before it or at any other point. *)
Theorem main_cleanup_leaks_surface :
  outcome (main plain_world 3) = Returned EXIT_SUCCESS
  /\ calls_of "createSurface" (trace (main plain_world 3)) = 1%nat
  /\ calls_of "delete_Instance" (trace main_cleanup) = 1%nat
  /\ calls_of "delete_Surface" (trace main_cleanup) = 0%nat
  /\ existsb (passes_argument "surface") (trace main_cleanup) = false
  /\ calls_of "delete_Surface" (trace (main plain_world 3)) = 0%nat.
Proof. repeat split. Qed.

(** In every world and for every fuel, no run of [main] calls
    [delete_Surface]. *)
Lemma main_never_deletes_surface w fuel :
  calls_of "delete_Surface" (trace (main w fuel)) = 0%nat.
Proof.
  assert (Hloop : forall fuel k,
             calls_of "delete_Surface" (trace (main_loop w fuel k)) = 0%nat).
  { clear fuel. induction fuel as [|fuel IH]; intros k; [reflexivity|].
    cbn [main_loop]. specialize (IH (S k)).
    destruct (glfwWindowShouldClose w k); [reflexivity|].
    destruct (main_loop w fuel (S k)) as [tr [[]| |]]; cbn in *; exact IH. }
  specialize (Hloop fuel 0%nat).
  unfold main, main_setup.
  destruct (malloc_ok w _); cbn; [|reflexivity].
  destruct (negb _ || negb _ || negb _); cbn; [reflexivity|].
  destruct (main_loop w fuel 0) as [tr [[]| |]]; cbn in *;
    unfold Run_bind; cbn; unfold calls_of in *; cbn;
    repeat rewrite filter_app; repeat rewrite length_app; cbn;
    cbn in Hloop; lia.
Qed.

(** * Further properties of the code *)

(** ** Queue family queries, continued *)

Lemma int32_of_uint32_small u : 0 <= u < 2 ^ 31 -> int32_of_uint32 u = u.
Proof.
  intros Hu. unfold int32_of_uint32. rewrite Z.mod_small; lia.
Qed.

(** What the loop of [getPresentQueueIndex] finds is the first index, from
    where it starts, whose family can present. *)
Lemma getPresentQueueIndex_loop_some w device surface remaining : forall k i,
  getPresentQueueIndex_loop w device surface remaining k = Some i ->
  (k <= i < k + remaining)%nat
  /\ vkGetPhysicalDeviceSurfaceSupportKHR w device (Z.of_nat i) surface <> 0
  /\ forall j, (k <= j < i)%nat ->
       vkGetPhysicalDeviceSurfaceSupportKHR w device (Z.of_nat j) surface = 0.
Proof.
  induction remaining as [|remaining IH]; intros k i; cbn; [discriminate|].
  destruct (Z.eqb_spec
              (vkGetPhysicalDeviceSurfaceSupportKHR w device (Z.of_nat k) surface) 0)
    as [Hno|Hyes]; cbn.
  - intros Hrest. destruct (IH _ _ Hrest) as (Hrange & Hi & Hbefore).
    split; [lia|]. split; [exact Hi|].
    intros j Hj. destruct (Nat.eq_dec j k) as [->|Hjk]; [exact Hno|].
    apply Hbefore. lia.
  - intros [= <-]. split; [lia|]. split; [exact Hyes|]. intros j Hj. lia.
Qed.

Lemma getPresentQueueIndex_loop_first w device surface remaining : forall k i,
  (k <= i < k + remaining)%nat ->
  vkGetPhysicalDeviceSurfaceSupportKHR w device (Z.of_nat i) surface <> 0 ->
  (forall j, (k <= j < i)%nat ->
     vkGetPhysicalDeviceSurfaceSupportKHR w device (Z.of_nat j) surface = 0) ->
  getPresentQueueIndex_loop w device surface remaining k = Some i.
Proof.
  induction remaining as [|remaining IH]; intros k i Hrange Hi Hbefore; [lia|].
  cbn. destruct (Nat.eq_dec k i) as [->|Hki].
  - apply Z.eqb_neq in Hi. rewrite Hi. reflexivity.
  - rewrite (Hbefore k) by lia. cbn. apply IH; [lia|exact Hi|].
    intros j Hj. apply Hbefore. lia.
Qed.

(** What the loop of [getDeviceQueueIndex] finds is the first index, from
    where it starts, whose family has a queue, and then only when the flags
    of family 0 meet the mask. *)
Lemma getDeviceQueueIndex_loop_some arr bit remaining : forall k i,
  getDeviceQueueIndex_loop arr bit remaining k = Some i ->
  (k <= i < k + remaining)%nat
  /\ queueCount (nth i arr noQueueFamily) > 0
  /\ Z.land (queueFlags (nth 0 arr noQueueFamily)) bit <> 0
  /\ forall j, (k <= j < i)%nat -> queueCount (nth j arr noQueueFamily) <= 0.
Proof.
  induction remaining as [|remaining IH]; intros k i; cbn; [discriminate|].
  destruct (Z.gtb_spec (queueCount (nth k arr noQueueFamily)) 0) as [Hq|Hq];
    destruct (Z.eqb_spec (Z.land (queueFlags (nth 0 arr noQueueFamily)) bit) 0)
      as [Hf|Hf]; cbn.
  - intros Hrest. destruct (IH _ _ Hrest) as (_ & _ & Hflags & _). contradiction.
  - intros [= <-]. split; [lia|]. split; [lia|]. split; [exact Hf|].
    intros j Hj. lia.
  - intros Hrest. destruct (IH _ _ Hrest) as (_ & _ & Hflags & _). contradiction.
  - intros Hrest. destruct (IH _ _ Hrest) as (Hrange & Hi & Hflags & Hbefore).
    split; [lia|]. split; [exact Hi|]. split; [exact Hflags|].
    intros j Hj. destruct (Nat.eq_dec j k) as [->|Hjk]; [lia|].
    apply Hbefore. lia.
Qed.

(** X1: when the array can be allocated, [getPresentQueueIndex] returns the
    index of the first queue family that can present to the surface: the
    index [i] it is given no earlier supporting family for. *)
Theorem getPresentQueueIndex_returns_first w device surface i :
  malloc_ok w (families_bytes w device) = true ->
  0 <= i < family_count w device ->
  i < 2 ^ 31 ->
  vkGetPhysicalDeviceSurfaceSupportKHR w device i surface <> 0 ->
  (forall j, 0 <= j < i ->
     vkGetPhysicalDeviceSurfaceSupportKHR w device j surface = 0) ->
  getPresentQueueIndex w device surface = ([], Returned i).
Proof.
  intros Halloc Hrange Hsmall Hi Hbefore.
  rewrite getPresentQueueIndex_run. cbv zeta. rewrite Halloc.
  unfold family_count in Hrange.
  rewrite (getPresentQueueIndex_loop_first w device surface _ 0 (Z.to_nat i)).
  - rewrite Z2Nat.id by lia. rewrite int32_of_uint32_small by lia. reflexivity.
  - lia.
  - rewrite Z2Nat.id by lia. exact Hi.
  - intros j Hj. apply Hbefore. lia.
Qed.

Lemma getPresentQueueIndex_returns_first_witness :
  getPresentQueueIndex late_present_world 101 9 = ([], Returned 2).
Proof.
  apply (getPresentQueueIndex_returns_first late_present_world 101 9 2).
  - reflexivity.
  - vm_compute. split; [discriminate | reflexivity].
  - reflexivity.
  - vm_compute. discriminate.
  - intros j Hj. assert (Hcases : j = 0 \/ j = 1) by lia.
    destruct Hcases as [-> | ->]; reflexivity.
Defined.

(** X2: an index returned by [getPresentQueueIndex] (anything but -1) is a
    valid family index of the device, its family can present to the
    surface, and no family before it can. *)
Theorem getPresentQueueIndex_found_is_first w device surface tr r :
  getPresentQueueIndex w device surface = (tr, Returned r) ->
  r <> -1 ->
  family_count w device < 2 ^ 31 ->
  0 <= r < family_count w device
  /\ vkGetPhysicalDeviceSurfaceSupportKHR w device r surface <> 0
  /\ forall j, 0 <= j < r ->
       vkGetPhysicalDeviceSurfaceSupportKHR w device j surface = 0.
Proof.
  rewrite getPresentQueueIndex_run. cbv zeta. unfold family_count.
  destruct (malloc_ok w _); [|discriminate].
  destruct (getPresentQueueIndex_loop _ _ _ _ _) as [i|] eqn:Hloop;
    intros [= <- <-] Hfound Hcount; [|contradiction].
  apply getPresentQueueIndex_loop_some in Hloop.
  destruct Hloop as (Hrange & Hi & Hbefore).
  rewrite int32_of_uint32_small by lia.
  split; [lia|]. split; [exact Hi|].
  intros j Hj. rewrite <- (Z2Nat.id j) by lia. apply Hbefore. lia.
Qed.

Lemma getPresentQueueIndex_found_is_first_witness :
  0 <= 2 < family_count late_present_world 101
  /\ vkGetPhysicalDeviceSurfaceSupportKHR late_present_world 101 2 9 <> 0
  /\ forall j, 0 <= j < 2 ->
       vkGetPhysicalDeviceSurfaceSupportKHR late_present_world 101 j 9 = 0.
Proof.
  apply (getPresentQueueIndex_found_is_first late_present_world 101 9 [] 2).
  - reflexivity.
  - discriminate.
  - reflexivity.
Defined.

(** A found index, read off the result of the loop. *)
Lemma queue_index_result_found w device bit :
  queue_index_result w device bit <> -1 ->
  family_count w device < 2 ^ 31 ->
  0 <= queue_index_result w device bit < family_count w device
  /\ queueCount (family w device (queue_index_result w device bit)) > 0
  /\ Z.land (queueFlags (family w device 0)) bit <> 0
  /\ forall j, 0 <= j < queue_index_result w device bit ->
       queueCount (family w device j) <= 0.
Proof.
  unfold queue_index_result, family_count, family. cbv zeta.
  destruct (getDeviceQueueIndex_loop _ _ _ _) as [i|] eqn:Hloop;
    intros Hfound Hcount; [|contradiction].
  apply getDeviceQueueIndex_loop_some in Hloop.
  destruct Hloop as (Hrange & Hi & Hflags & Hbefore).
  rewrite int32_of_uint32_small by lia. rewrite Nat2Z.id.
  split; [lia|]. split; [exact Hi|]. split; [exact Hflags|].
  intros j Hj. apply Hbefore. lia.
Qed.

(** X3: an index returned by [getDeviceQueueIndex] (anything but -1) is a
    valid family index of the device whose family has at least one queue,
    no family before it has a queue, and the flags of family 0 meet the
    mask. *)
Theorem getDeviceQueueIndex_found_in_range w device bit tr r :
  getDeviceQueueIndex w device bit = (tr, Returned r) ->
  r <> -1 ->
  family_count w device < 2 ^ 31 ->
  0 <= r < family_count w device
  /\ queueCount (family w device r) > 0
  /\ Z.land (queueFlags (family w device 0)) bit <> 0
  /\ forall j, 0 <= j < r -> queueCount (family w device j) <= 0.
Proof.
  rewrite getDeviceQueueIndex_run. cbv zeta.
  fold (queue_index_result w device bit).
  destruct (malloc_ok w _); [|discriminate].
  intros [= <- <-]. apply queue_index_result_found.
Qed.

Lemma getDeviceQueueIndex_found_in_range_witness :
  0 <= 2 < family_count late_present_world 101
  /\ queueCount (family late_present_world 101 2) > 0
  /\ Z.land (queueFlags (family late_present_world 101 0)) VK_QUEUE_COMPUTE_BIT <> 0
  /\ forall j, 0 <= j < 2 -> queueCount (family late_present_world 101 j) <= 0.
Proof.
  apply (getDeviceQueueIndex_found_in_range late_present_world 101
           VK_QUEUE_COMPUTE_BIT [] 2).
  - reflexivity.
  - discriminate.
  - reflexivity.
Defined.

(** X4: when the array can be allocated and the first queue family has a
    queue and a flag of the mask, [getDeviceQueueIndex] returns index 0. *)
Theorem getDeviceQueueIndex_first_family w device bit :
  malloc_ok w (families_bytes w device) = true ->
  0 < family_count w device ->
  queueCount (family w device 0) > 0 ->
  Z.land (queueFlags (family w device 0)) bit <> 0 ->
  getDeviceQueueIndex w device bit = ([], Returned 0).
Proof.
  intros Halloc Hcount Hqueues Hflags.
  rewrite getDeviceQueueIndex_run. cbv zeta. rewrite Halloc.
  unfold family_count, family in *. cbn [Z.to_nat] in *.
  destruct (vkGetPhysicalDeviceQueueFamilyProperties w device) as [|f0 rest];
    [cbn in Hcount; lia|].
  cbn [List.length getDeviceQueueIndex_loop nth] in *.
  apply Z.gtb_gt in Hqueues. apply Z.eqb_neq in Hflags.
  rewrite Hqueues, Hflags. reflexivity.
Qed.

Lemma getDeviceQueueIndex_first_family_witness :
  getDeviceQueueIndex plain_world 101 VK_QUEUE_GRAPHICS_BIT = ([], Returned 0).
Proof.
  apply (getDeviceQueueIndex_first_family plain_world 101 VK_QUEUE_GRAPHICS_BIT).
  - reflexivity.
  - reflexivity.
  - reflexivity.
  - vm_compute. discriminate.
Defined.

Lemma getPresentQueueIndex_loop_none_inv w device surface remaining : forall k,
  getPresentQueueIndex_loop w device surface remaining k = None ->
  forall j, (k <= j < k + remaining)%nat ->
    vkGetPhysicalDeviceSurfaceSupportKHR w device (Z.of_nat j) surface = 0.
Proof.
  induction remaining as [|remaining IH]; intros k Hnone j Hj; [lia|].
  cbn in Hnone.
  destruct (Z.eqb_spec
              (vkGetPhysicalDeviceSurfaceSupportKHR w device (Z.of_nat k) surface) 0)
    as [Hno|Hyes]; cbn in Hnone; [|discriminate].
  destruct (Nat.eq_dec j k) as [->|Hjk]; [exact Hno|].
  apply (IH (S k) Hnone). lia.
Qed.

(** X5: when the array for the queue family properties cannot be allocated,
    [getDeviceQueueIndex], [getPresentQueueIndex] and [getDeviceIndices] each
    print the error once and end the process; none returns to its caller. *)
Theorem queue_queries_allocation_failure w device :
  malloc_ok w (families_bytes w device) = false ->
  (forall bit,
      getDeviceQueueIndex w device bit = ([EvPrintError], Exited EXIT_FAILURE))
  /\ (forall surface,
      getPresentQueueIndex w device surface
      = ([EvPrintError], Exited EXIT_FAILURE))
  /\ (forall surface,
      getDeviceIndices w device surface = ([EvPrintError], Exited EXIT_FAILURE)).
Proof.
  intros Halloc. split; [|split].
  - intros bit. rewrite getDeviceQueueIndex_run. cbv zeta. rewrite Halloc.
    reflexivity.
  - intros surface. rewrite getPresentQueueIndex_run. cbv zeta. rewrite Halloc.
    reflexivity.
  - intros surface. unfold getDeviceIndices.
    rewrite getDeviceQueueIndex_run. cbv zeta. rewrite Halloc. reflexivity.
Qed.

Lemma queue_queries_allocation_failure_witness :
  (forall bit,
      getDeviceQueueIndex out_of_memory_world 101 bit
      = ([EvPrintError], Exited EXIT_FAILURE))
  /\ (forall surface,
      getPresentQueueIndex out_of_memory_world 101 surface
      = ([EvPrintError], Exited EXIT_FAILURE))
  /\ (forall surface,
      getDeviceIndices out_of_memory_world 101 surface
      = ([EvPrintError], Exited EXIT_FAILURE)).
Proof.
  apply (queue_queries_allocation_failure out_of_memory_world 101).
  reflexivity.
Defined.

(** ** Device indices *)

(** The whole run of [getDeviceIndices], in closed form. *)
Lemma getDeviceIndices_run w physicalDevice surface :
  getDeviceIndices w physicalDevice surface =
  if malloc_ok w (families_bytes w physicalDevice)
  then
    let g := queue_index_result w physicalDevice VK_QUEUE_GRAPHICS_BIT in
    let c := queue_index_result w physicalDevice VK_QUEUE_COMPUTE_BIT in
    let p := present_index_result w physicalDevice surface in
    ([], Returned
           (mkDeviceIndices
              (negb (g =? -1)) (if negb (g =? -1) then g mod 2 ^ 32 else 0)
              (negb (c =? -1)) (if negb (c =? -1) then c mod 2 ^ 32 else 0)
              (negb (surface =? VK_NULL_HANDLE) && negb (p =? -1))
              (if negb (surface =? VK_NULL_HANDLE) && negb (p =? -1)
               then p mod 2 ^ 32 else 0)))
  else ([EvPrintError], Exited EXIT_FAILURE).
Proof.
  unfold getDeviceIndices.
  rewrite !getDeviceQueueIndex_run, getPresentQueueIndex_run. cbv zeta.
  fold (queue_index_result w physicalDevice VK_QUEUE_GRAPHICS_BIT).
  fold (queue_index_result w physicalDevice VK_QUEUE_COMPUTE_BIT).
  fold (present_index_result w physicalDevice surface).
  destruct (malloc_ok w _); [|reflexivity].
  cbn. unfold Run_bind. cbn.
  destruct (negb (surface =? VK_NULL_HANDLE)); cbn; [|reflexivity].
  destruct (negb (present_index_result w physicalDevice surface =? -1));
    reflexivity.
Qed.

(** X6: without a surface ([VK_NULL_HANDLE]) [getDeviceIndices] reports no
    present family, with present index 0, whatever the queue families of the
    device could present to. *)
Theorem getDeviceIndices_null_surface w physicalDevice :
  malloc_ok w (families_bytes w physicalDevice) = true ->
  exists di,
    getDeviceIndices w physicalDevice VK_NULL_HANDLE = ([], Returned di)
    /\ hasPresent di = false
    /\ presentIndex di = 0.
Proof.
  intros Halloc. rewrite getDeviceIndices_run, Halloc. cbv zeta.
  eexists. split; [reflexivity|]. split; reflexivity.
Qed.

Lemma getDeviceIndices_null_surface_witness :
  exists di,
    getDeviceIndices plain_world 101 VK_NULL_HANDLE = ([], Returned di)
    /\ hasPresent di = false
    /\ presentIndex di = 0.
Proof.
  apply (getDeviceIndices_null_surface plain_world 101). reflexivity.
Defined.

(** X7: given a surface, [getDeviceIndices] returns without output; when it
    reports a present family, the present index is the first family index
    that can present to the surface, and when it reports none, no family of
    the device can present to it and the present index is 0. *)
Theorem getDeviceIndices_present w physicalDevice surface :
  malloc_ok w (families_bytes w physicalDevice) = true ->
  surface <> VK_NULL_HANDLE ->
  family_count w physicalDevice < 2 ^ 31 ->
  exists di,
    getDeviceIndices w physicalDevice surface = ([], Returned di)
    /\ (hasPresent di = true ->
        0 <= presentIndex di < family_count w physicalDevice
        /\ vkGetPhysicalDeviceSurfaceSupportKHR w physicalDevice
             (presentIndex di) surface <> 0
        /\ forall j, 0 <= j < presentIndex di ->
             vkGetPhysicalDeviceSurfaceSupportKHR w physicalDevice j surface = 0)
    /\ (hasPresent di = false ->
        presentIndex di = 0
        /\ forall i, 0 <= i < family_count w physicalDevice ->
             vkGetPhysicalDeviceSurfaceSupportKHR w physicalDevice i surface = 0).
Proof.
  intros Halloc Hsurface Hcount.
  rewrite getDeviceIndices_run, Halloc. cbv zeta.
  eexists. split; [reflexivity|]. cbn [hasPresent presentIndex].
  apply Z.eqb_neq in Hsurface. rewrite Hsurface. cbn [negb andb].
  unfold present_index_result, family_count in *.
  destruct (getPresentQueueIndex_loop _ _ _ _ _) as [i|] eqn:Hloop.
  - apply getPresentQueueIndex_loop_some in Hloop.
    destruct Hloop as (Hrange & Hi & Hbefore).
    rewrite int32_of_uint32_small by lia.
    assert (Hfound : negb (Z.of_nat i =? -1) = true)
      by (apply negb_true_iff, Z.eqb_neq; lia).
    rewrite Hfound. rewrite Z.mod_small by lia.
    split; [|discriminate]. intros _.
    split; [lia|]. split; [exact Hi|].
    intros j Hj. rewrite <- (Z2Nat.id j) by lia. apply Hbefore. lia.
  - cbn. split; [discriminate|]. intros _. split; [reflexivity|].
    intros i Hi. rewrite <- (Z2Nat.id i) by lia.
    apply (getPresentQueueIndex_loop_none_inv _ _ _ _ _ Hloop). lia.
Qed.

Lemma getDeviceIndices_present_witness :
  exists di,
    getDeviceIndices late_present_world 101 9 = ([], Returned di)
    /\ (hasPresent di = true ->
        0 <= presentIndex di < family_count late_present_world 101
        /\ vkGetPhysicalDeviceSurfaceSupportKHR late_present_world 101
             (presentIndex di) 9 <> 0
        /\ forall j, 0 <= j < presentIndex di ->
             vkGetPhysicalDeviceSurfaceSupportKHR late_present_world 101 j 9 = 0)
    /\ (hasPresent di = false ->
        presentIndex di = 0
        /\ forall i, 0 <= i < family_count late_present_world 101 ->
             vkGetPhysicalDeviceSurfaceSupportKHR late_present_world 101 i 9 = 0).
Proof.
  apply (getDeviceIndices_present late_present_world 101 9).
  - reflexivity.
  - discriminate.
  - reflexivity.
Defined.

(** X8: a graphics or compute index that [getDeviceIndices] reports as found
    is a valid family index of the device whose family has at least one
    queue; an index reported as not found is left at 0. *)
Theorem getDeviceIndices_indices_in_range w physicalDevice surface tr di :
  getDeviceIndices w physicalDevice surface = (tr, Returned di) ->
  family_count w physicalDevice < 2 ^ 31 ->
  (if hasGraphics di
   then 0 <= graphicsIndex di < family_count w physicalDevice
        /\ queueCount (family w physicalDevice (graphicsIndex di)) > 0
   else graphicsIndex di = 0)
  /\ (if hasCompute di
      then 0 <= computeIndex di < family_count w physicalDevice
           /\ queueCount (family w physicalDevice (computeIndex di)) > 0
      else computeIndex di = 0).
Proof.
  rewrite getDeviceIndices_run. cbv zeta.
  destruct (malloc_ok w _) eqn:Halloc; [|discriminate].
  intros [= <- <-] Hcount. cbn [hasGraphics graphicsIndex hasCompute computeIndex].
  assert (Hone : forall bit,
             if negb (queue_index_result w physicalDevice bit =? -1)
             then 0 <= queue_index_result w physicalDevice bit mod 2 ^ 32
                       < family_count w physicalDevice
                  /\ queueCount
                       (family w physicalDevice
                          (queue_index_result w physicalDevice bit mod 2 ^ 32)) > 0
             else 0 = 0).
  { intros bit.
    destruct (Z.eqb_spec (queue_index_result w physicalDevice bit) (-1))
      as [Hnone|Hfound]; cbn [negb]; [reflexivity|].
    destruct (queue_index_result_found w physicalDevice bit Hfound Hcount)
      as (Hrange & Hqueues & _).
    rewrite Z.mod_small by lia. split; assumption. }
  split.
  - specialize (Hone VK_QUEUE_GRAPHICS_BIT).
    destruct (negb (queue_index_result w physicalDevice VK_QUEUE_GRAPHICS_BIT =? -1));
      [exact Hone|reflexivity].
  - specialize (Hone VK_QUEUE_COMPUTE_BIT).
    destruct (negb (queue_index_result w physicalDevice VK_QUEUE_COMPUTE_BIT =? -1));
      [exact Hone|reflexivity].
Qed.

Lemma getDeviceIndices_indices_in_range_witness :
  0 = 0
  /\ (0 <= 2 < family_count late_present_world 101
      /\ queueCount (family late_present_world 101 2) > 0).
Proof.
  apply (getDeviceIndices_indices_in_range late_present_world 101 9 []
           (mkDeviceIndices false 0 true 2 true 2)).
  - reflexivity.
  - reflexivity.
Defined.

(** ** Physical device selection, continued *)

(** The whole run of [createPhysicalDevice], in closed form. *)
Lemma createPhysicalDevice_run w instance :
  createPhysicalDevice w instance =
  let res := fst (vkEnumeratePhysicalDevices w instance) in
  let arr := snd (vkEnumeratePhysicalDevices w instance) in
  let deviceCount := Z.of_nat (List.length arr) in
  if negb (res =? VK_SUCCESS) || (deviceCount =? 0)
  then ([msg_no_device], Exited EXIT_FAILURE)
  else if negb (malloc_ok w (deviceCount * sizeof_VkPhysicalDevice))
  then ([EvPrintError], Exited EXIT_FAILURE)
  else
    match createPhysicalDevice_loop w arr VK_NULL_HANDLE with
    | (tr, Returned selectedDevice) =>
        if selectedDevice =? VK_NULL_HANDLE
        then (tr ++ [msg_no_suitable_device], Exited EXIT_FAILURE)
        else (tr ++ [], Returned selectedDevice)
    | (tr, Exited status) => (tr, Exited status)
    | (tr, OutOfFuel) => (tr, OutOfFuel)
    end.
Proof.
  unfold createPhysicalDevice. cbv zeta.
  destruct (negb _ || _); [reflexivity|].
  destruct (negb (malloc_ok w _)); [reflexivity|].
  cbn. unfold Run_bind.
  destruct (createPhysicalDevice_loop w _ VK_NULL_HANDLE) as [tr [d|s|]];
    cbn; [|reflexivity|reflexivity].
  destruct (d =? VK_NULL_HANDLE); reflexivity.
Qed.

(** A device the loop hands back is the one it started with or an array
    element that passed the test; the loop itself writes nothing. *)
Lemma createPhysicalDevice_loop_returned w arr : forall selected tr d,
  createPhysicalDevice_loop w arr selected = (tr, Returned d) ->
  tr = [] /\ (d = selected \/ (In d arr /\ passes_selection w d = true)).
Proof.
  induction arr as [|x arr IH]; intros selected tr d.
  - cbn. intros [= <- <-]. auto.
  - cbn [createPhysicalDevice_loop].
    assert (Hpass : passes_selection w x
                    = match outcome (getDeviceQueueIndex w x
                                       (Z.lor VK_QUEUE_GRAPHICS_BIT
                                          VK_QUEUE_COMPUTE_BIT)) with
                      | Returned r => negb (r =? -1)
                      | _ => false
                      end) by reflexivity.
    rewrite getDeviceQueueIndex_run in *. cbv zeta in *.
    destruct (malloc_ok w (families_bytes w x)); [|discriminate].
    cbn in Hpass |- *. unfold Run_bind. cbn.
    destruct (createPhysicalDevice_loop w arr _) as [tr' o] eqn:Hloop.
    cbn. intros [= <- ->].
    destruct (IH _ _ _ Hloop) as [Htr Hd]. split; [exact Htr|].
    destruct Hd as [Hd|[Hin Hd]].
    + rewrite <- Hpass in Hd.
      destruct (passes_selection w x) eqn:Hx; [|left; exact Hd].
      right. subst d. split; [left; reflexivity | exact Hx].
    + right. split; [right; exact Hin | exact Hd].
Qed.

(** What a returning [createPhysicalDevice] has gone through. *)
Lemma createPhysicalDevice_returned w instance tr d :
  createPhysicalDevice w instance = (tr, Returned d) ->
  d <> VK_NULL_HANDLE
  /\ In d (snd (vkEnumeratePhysicalDevices w instance))
  /\ passes_selection w d = true
  /\ fst (vkEnumeratePhysicalDevices w instance) = VK_SUCCESS
  /\ tr = [].
Proof.
  rewrite createPhysicalDevice_run. cbv zeta.
  destruct (Z.eqb_spec (fst (vkEnumeratePhysicalDevices w instance)) VK_SUCCESS)
    as [Hres|Hres]; cbn [negb orb]; [|discriminate].
  destruct (_ =? 0); [discriminate|].
  destruct (negb (malloc_ok w _)); [discriminate|].
  destruct (createPhysicalDevice_loop w _ VK_NULL_HANDLE) as [tr' [d'|s|]] eqn:Hloop;
    [|discriminate|discriminate].
  destruct (Z.eqb_spec d' VK_NULL_HANDLE) as [Hnull|Hnonnull]; [discriminate|].
  intros [= <- <-].
  destruct (createPhysicalDevice_loop_returned _ _ _ _ _ Hloop) as [-> Hd].
  destruct Hd as [Hd|[Hin Hpass]]; [contradiction|].
  repeat split; assumption.
Qed.

(** X9: a device returned by [createPhysicalDevice] is never
    [VK_NULL_HANDLE]: it is one of the enumerated devices, the enumeration
    answered [VK_SUCCESS], the device passed the selection test of the loop,
    and nothing was logged. *)
Theorem createPhysicalDevice_returns_selected w instance tr d :
  createPhysicalDevice w instance = (tr, Returned d) ->
  d <> VK_NULL_HANDLE
  /\ In d (snd (vkEnumeratePhysicalDevices w instance))
  /\ passes_selection w d = true
  /\ fst (vkEnumeratePhysicalDevices w instance) = VK_SUCCESS
  /\ tr = [].
Proof.
  intros Hrun. destruct (createPhysicalDevice_returned w instance tr d Hrun)
    as (Hnonnull & Hin & Hpass & Hres & Htr).
  split; [exact Hnonnull|]. split; [exact Hin|]. split; [exact Hpass|].
  split; [exact Hres | exact Htr].
Qed.

Lemma createPhysicalDevice_returns_selected_witness :
  103 <> VK_NULL_HANDLE
  /\ In 103 (snd (vkEnumeratePhysicalDevices three_gpu_world 11))
  /\ passes_selection three_gpu_world 103 = true
  /\ fst (vkEnumeratePhysicalDevices three_gpu_world 11) = VK_SUCCESS
  /\ @nil Event = [].
Proof.
  apply (createPhysicalDevice_returns_selected three_gpu_world 11 [] 103).
  reflexivity.
Defined.

(** X10: when the enumeration of physical devices does not answer
    [VK_SUCCESS], or answers with no device, [createPhysicalDevice] logs
    that no Vulkan capable device was found and ends the process, without
    looking at any device. *)
Theorem createPhysicalDevice_no_device w instance :
  fst (vkEnumeratePhysicalDevices w instance) <> VK_SUCCESS
  \/ snd (vkEnumeratePhysicalDevices w instance) = [] ->
  createPhysicalDevice w instance = ([msg_no_device], Exited EXIT_FAILURE).
Proof.
  intros Hnone. rewrite createPhysicalDevice_run. cbv zeta.
  destruct Hnone as [Hres|Hempty].
  - apply Z.eqb_neq in Hres. rewrite Hres. reflexivity.
  - rewrite Hempty. cbn. rewrite orb_true_r. reflexivity.
Qed.

Lemma createPhysicalDevice_no_device_witness :
  createPhysicalDevice no_enumeration_world 11
  = ([msg_no_device], Exited EXIT_FAILURE).
Proof.
  apply (createPhysicalDevice_no_device no_enumeration_world 11).
  left. vm_compute. discriminate.
Defined.

Lemma select_none w arr selected :
  (forall x, In x arr -> passes_selection w x = false) ->
  fold_left (select_step w) arr selected = selected.
Proof.
  revert selected.
  induction arr as [|x arr IH]; intros selected Hnone; [reflexivity|].
  cbn [fold_left]. unfold select_step at 2.
  rewrite (Hnone x (or_introl eq_refl)).
  apply IH. intros y Hy. apply Hnone. right. exact Hy.
Qed.

(** X11: when devices are enumerated and the arrays can be allocated but no
    device passes the selection test, [createPhysicalDevice] logs that no
    suitable device was found and ends the process; it never hands
    [VK_NULL_HANDLE] to its caller. *)
Theorem createPhysicalDevice_none_suitable w instance :
  fst (vkEnumeratePhysicalDevices w instance) = VK_SUCCESS ->
  snd (vkEnumeratePhysicalDevices w instance) <> [] ->
  malloc_ok w
    (Z.of_nat (List.length (snd (vkEnumeratePhysicalDevices w instance)))
     * sizeof_VkPhysicalDevice) = true ->
  (forall x, In x (snd (vkEnumeratePhysicalDevices w instance)) ->
             malloc_ok w (families_bytes w x) = true) ->
  (forall x, In x (snd (vkEnumeratePhysicalDevices w instance)) ->
             passes_selection w x = false) ->
  createPhysicalDevice w instance
  = ([msg_no_suitable_device], Exited EXIT_FAILURE).
Proof.
  intros Hres Hdevices Harr Hfam Hnone.
  rewrite createPhysicalDevice_run. cbv zeta.
  rewrite Hres, Harr. cbn [negb orb].
  replace (Z.of_nat (List.length (snd (vkEnumeratePhysicalDevices w instance))) =? 0)
    with false.
  2:{ symmetry. apply Z.eqb_neq.
      destruct (snd (vkEnumeratePhysicalDevices w instance));
        [contradiction | cbn [List.length]; lia]. }
  rewrite createPhysicalDevice_loop_run by exact Hfam.
  rewrite select_none by exact Hnone. reflexivity.
Qed.

Lemma createPhysicalDevice_none_suitable_witness :
  createPhysicalDevice transfer_only_gpus_world 11
  = ([msg_no_suitable_device], Exited EXIT_FAILURE).
Proof.
  apply (createPhysicalDevice_none_suitable transfer_only_gpus_world 11).
  - reflexivity.
  - discriminate.
  - reflexivity.
  - intros x _. reflexivity.
  - intros x _. reflexivity.
Defined.

(** ** Instance creation, continued *)

(** X12: when the string matcher does not find every requested extension,
    or every requested layer, [createInstance] logs one fatal line and ends
    the process without issuing [vkCreateInstance]. *)
Theorem createInstance_missing_requirement w info ec en lc ln :
  findMatchingStrings w (ppExtensionNames info) (extensionCount info) en ec <> ec
  \/ findMatchingStrings w (ppLayerNames info) (layerCount info) ln lc <> lc ->
  outcome (createInstance w info ec en lc ln) = Exited EXIT_FAILURE
  /\ (trace (createInstance w info ec en lc ln) = [msg_no_extension]
      \/ trace (createInstance w info ec en lc ln) = [msg_no_layer])
  /\ forall ci, ~ In (EvCreateInstance ci) (trace (createInstance w info ec en lc ln)).
Proof.
  intros Hmissing. rewrite createInstance_run. cbv zeta.
  destruct (Z.eqb_spec
              (findMatchingStrings w (ppExtensionNames info) (extensionCount info)
                 en ec) ec) as [Hext|Hext]; cbn [negb].
  - destruct (Z.eqb_spec
                (findMatchingStrings w (ppLayerNames info) (layerCount info)
                   ln lc) lc) as [Hlayer|Hlayer]; cbn [negb].
    + destruct Hmissing; contradiction.
    + split; [reflexivity|]. split; [right; reflexivity|].
      intros ci [H|[]]. discriminate H.
  - split; [reflexivity|]. split; [left; reflexivity|].
    intros ci [H|[]]. discriminate H.
Qed.

Lemma createInstance_missing_requirement_witness :
  outcome (createInstance nothing_matches_world some_instance_info
             1 ["VK_EXT_debug_utils"] 0 [])
  = Exited EXIT_FAILURE
  /\ (trace (createInstance nothing_matches_world some_instance_info
               1 ["VK_EXT_debug_utils"] 0 []) = [msg_no_extension]
      \/ trace (createInstance nothing_matches_world some_instance_info
                  1 ["VK_EXT_debug_utils"] 0 []) = [msg_no_layer])
  /\ forall ci,
       ~ In (EvCreateInstance ci)
           (trace (createInstance nothing_matches_world some_instance_info
                     1 ["VK_EXT_debug_utils"] 0 [])).
Proof.
  apply (createInstance_missing_requirement nothing_matches_world
           some_instance_info 1 ["VK_EXT_debug_utils"] 0 []).
  left. vm_compute. discriminate.
Defined.

(** X13: when the matcher finds every requested extension and layer and
    [vkCreateInstance] answers [VK_SUCCESS], [createInstance] issues that
    one call, logs nothing and returns the created handle; the request
    carries the caller's extension and layer lists and counts unchanged. *)
Theorem createInstance_succeeds w info ec en lc ln instance :
  findMatchingStrings w (ppExtensionNames info) (extensionCount info) en ec = ec ->
  findMatchingStrings w (ppLayerNames info) (layerCount info) ln lc = lc ->
  vkCreateInstance w (createInstance_createInfo w ec en lc ln)
  = (VK_SUCCESS, instance) ->
  exists ci,
    createInstance w info ec en lc ln = ([EvCreateInstance ci], Returned instance)
    /\ enabledExtensionCount ci = ec
    /\ ppEnabledExtensionNames ci = en
    /\ enabledLayerCount ci = lc
    /\ ppEnabledLayerNames ci = ln.
Proof.
  intros Hext Hlayer Hnative.
  exists (createInstance_createInfo w ec en lc ln).
  rewrite createInstance_run. cbv zeta.
  rewrite Hext, Hlayer, !Z.eqb_refl, Hnative. cbn.
  repeat split.
Qed.

Lemma createInstance_succeeds_witness :
  exists ci,
    createInstance plain_world some_instance_info
      1 ["VK_EXT_debug_utils"] 1 ["VK_LAYER_LUNARG_standard_validation"]
    = ([EvCreateInstance ci], Returned 11)
    /\ enabledExtensionCount ci = 1
    /\ ppEnabledExtensionNames ci = ["VK_EXT_debug_utils"]
    /\ enabledLayerCount ci = 1
    /\ ppEnabledLayerNames ci = ["VK_LAYER_LUNARG_standard_validation"].
Proof.
  apply (createInstance_succeeds plain_world some_instance_info
           1 ["VK_EXT_debug_utils"] 1 ["VK_LAYER_LUNARG_standard_validation"] 11);
    reflexivity.
Defined.

(** ** The run of [main] *)

(** The setup of [main] depends on the world through two tests only: the
    allocation of the extension names and the three index queries. *)
Lemma main_setup_paths w : main_setup w = main_setup (setup_path w).
Proof.
  unfold setup_path, main_indices_ok, main_extension_bytes.
  unfold main_setup at 1.
  destruct (malloc_ok w _); cbn [negb]; [|reflexivity].
  destruct (helper_status w "getDeviceQueueIndex"
              ["&graphicsIndex"; "physicalDevice"; "VK_QUEUE_GRAPHICS_BIT"]
            =? VK_SUCCESS);
    destruct (helper_status w "getDeviceQueueIndex"
                ["&computeIndex"; "physicalDevice"; "VK_QUEUE_COMPUTE_BIT"]
              =? VK_SUCCESS);
    destruct (helper_status w "getPresentQueueIndex"
                ["&presentIndex"; "physicalDevice"; "surface"]
              =? VK_SUCCESS);
    reflexivity.
Qed.

(** The whole run of [main], from the runs of its three parts. *)
Lemma main_run w fuel :
  main w fuel =
  match main_setup w with
  | (s, Returned _) =>
      match main_loop w fuel 0 with
      | (l, Returned _) => (s ++ l ++ trace main_cleanup ++ [], Returned EXIT_SUCCESS)
      | (l, Exited status) => (s ++ l, Exited status)
      | (l, OutOfFuel) => (s ++ l, OutOfFuel)
      end
  | (s, Exited status) => (s, Exited status)
  | (s, OutOfFuel) => (s, OutOfFuel)
  end.
Proof.
  unfold main. cbn [bind Monad_Run]. unfold Run_bind at 1.
  destruct (main_setup w) as [s [[]|status|]]; cbn [fst snd];
    [|reflexivity|reflexivity].
  unfold Run_bind at 1.
  destruct (main_loop w fuel 0) as [l [[]|status|]]; cbn [fst snd];
    reflexivity.
Qed.

(** The loop of [main] calls nothing but its two GLFW functions. *)
Lemma main_loop_calls w name fuel : forall k,
  String.eqb "glfwWindowShouldClose" name = false ->
  String.eqb "glfwPollEvents" name = false ->
  calls_of name (trace (main_loop w fuel k)) = 0%nat.
Proof.
  induction fuel as [|fuel IH]; intros k Hquery Hpoll; [reflexivity|].
  cbn [main_loop]. specialize (IH (S k) Hquery Hpoll).
  destruct (glfwWindowShouldClose w k).
  - unfold calls_of. cbn -[String.eqb]. rewrite Hquery. reflexivity.
  - destruct (main_loop w fuel (S k)) as [tr o].
    unfold calls_of in *. cbn -[String.eqb] in IH |- *.
    unfold Run_bind. cbn -[String.eqb].
    rewrite Hquery, Hpoll. exact IH.
Qed.

Lemma after_call_skip name tr1 tr2 :
  calls_of name tr1 = 0%nat ->
  after_call name (tr1 ++ tr2) = after_call name tr2.
Proof.
  unfold calls_of.
  induction tr1 as [|e tr1 IH]; cbn; [reflexivity|].
  destruct (is_call name e); cbn; [discriminate|exact IH].
Qed.

Lemma after_call_none name tr :
  calls_of name tr = 0%nat -> after_call name tr = [].
Proof.
  intros Hnone. rewrite <- (app_nil_r tr). rewrite after_call_skip by exact Hnone.
  reflexivity.
Qed.

(** X14: when [main] cannot allocate the array for its extension names, it
    logs the fatal line and panics right after asking GLFW for its
    extensions: no instance, window or device is created and nothing is
    cleaned up. *)
Theorem main_allocation_failure w fuel :
  malloc_ok w (main_extension_bytes w) = false ->
  main w fuel
  = ([EvCall "glfwInit" [];
      EvCall "glfwGetRequiredInstanceExtensions" ["&glfwExtensionCount"];
      msg_no_memory;
      EvCall "panic" []],
     Exited EXIT_FAILURE).
Proof.
  intros Halloc. rewrite main_run, main_setup_paths.
  unfold setup_path. rewrite Halloc. reflexivity.
Qed.

Lemma main_allocation_failure_witness :
  main out_of_memory_world 3
  = ([EvCall "glfwInit" [];
      EvCall "glfwGetRequiredInstanceExtensions" ["&glfwExtensionCount"];
      msg_no_memory;
      EvCall "panic" []],
     Exited EXIT_FAILURE).
Proof.
  apply (main_allocation_failure out_of_memory_world 3). reflexivity.
Defined.

(** X15: when one of the three queue index queries of [main] does not answer
    [VK_SUCCESS], [main] logs the fatal line and panics: the instance, the
    debug callback, the window and the surface have been created, but no
    logical device or swap chain is, the window loop is never entered, and
    nothing is cleaned up. *)
Theorem main_index_failure w fuel :
  malloc_ok w (main_extension_bytes w) = true ->
  main_indices_ok w = false ->
  outcome (main w fuel) = Exited EXIT_FAILURE
  /\ (exists pre,
         trace (main w fuel) = pre ++ [msg_no_indices; EvCall "panic" []])
  /\ calls_of "new_Instance" (trace (main w fuel)) = 1%nat
  /\ calls_of "createSurface" (trace (main w fuel)) = 1%nat
  /\ calls_of "new_Device" (trace (main w fuel)) = 0%nat
  /\ calls_of "new_SwapChain" (trace (main w fuel)) = 0%nat
  /\ calls_of "glfwWindowShouldClose" (trace (main w fuel)) = 0%nat
  /\ calls_of "delete_Instance" (trace (main w fuel)) = 0%nat.
Proof.
  intros Halloc Hindices. rewrite main_run, main_setup_paths.
  unfold setup_path. rewrite Halloc, Hindices. cbn [negb].
  split; [reflexivity|]. split; [|repeat split].
  exists (firstn 10 (fst (main_setup no_present_index_world))). reflexivity.
Qed.

Lemma main_index_failure_witness :
  outcome (main no_present_index_world 3) = Exited EXIT_FAILURE
  /\ (exists pre,
         trace (main no_present_index_world 3)
         = pre ++ [msg_no_indices; EvCall "panic" []])
  /\ calls_of "new_Instance" (trace (main no_present_index_world 3)) = 1%nat
  /\ calls_of "createSurface" (trace (main no_present_index_world 3)) = 1%nat
  /\ calls_of "new_Device" (trace (main no_present_index_world 3)) = 0%nat
  /\ calls_of "new_SwapChain" (trace (main no_present_index_world 3)) = 0%nat
  /\ calls_of "glfwWindowShouldClose" (trace (main no_present_index_world 3)) = 0%nat
  /\ calls_of "delete_Instance" (trace (main no_present_index_world 3)) = 0%nat.
Proof.
  apply (main_index_failure no_present_index_world 3); reflexivity.
Defined.

Lemma trace_of {A} tr (o : Outcome A) : trace (tr, o) = tr.
Proof. reflexivity. Qed.

Lemma outcome_of {A} tr (o : Outcome A) : outcome (tr, o) = o.
Proof. reflexivity. Qed.

Lemma main_setup_succeeds w :
  malloc_ok w (main_extension_bytes w) = true ->
  main_indices_ok w = true ->
  main_setup w = (main_setup_trace, Returned tt).
Proof.
  intros Halloc Hindices. rewrite main_setup_paths.
  unfold setup_path. rewrite Halloc, Hindices. reflexivity.
Qed.

Lemma calls_of_iterations_other name n :
  String.eqb "glfwWindowShouldClose" name = false ->
  String.eqb "glfwPollEvents" name = false ->
  calls_of name (iterations n) = 0%nat.
Proof.
  intros Hquery Hpoll. rewrite calls_of_iterations.
  unfold calls_of, main_loop_iteration. cbn -[String.eqb].
  rewrite Hquery, Hpoll. apply Nat.mul_0_r.
Qed.

(** While the window stays open the loop uses up whatever fuel it is given. *)
Lemma main_loop_open w fuel : forall k,
  (forall j, glfwWindowShouldClose w j = false) ->
  main_loop w fuel k = (iterations fuel, OutOfFuel).
Proof.
  induction fuel as [|fuel IH]; intros k Hopen; [reflexivity|].
  cbn [main_loop]. rewrite Hopen, (IH (S k) Hopen). reflexivity.
Qed.

(** X16: when the allocation and the index queries succeed and the window
    asks to close at query number [n], [main] returns [EXIT_SUCCESS] after
    [n] polls of the event queue, its last calls are the cleanup, and each
    constructor helper it pairs with a destructor has been called as often
    as that destructor. *)
Theorem main_completes w n fuel :
  malloc_ok w (main_extension_bytes w) = true ->
  main_indices_ok w = true ->
  (forall j, (j < n)%nat -> glfwWindowShouldClose w j = false) ->
  glfwWindowShouldClose w n = true ->
  (n < fuel)%nat ->
  outcome (main w fuel) = Returned EXIT_SUCCESS
  /\ (exists pre, trace (main w fuel) = pre ++ trace main_cleanup)
  /\ calls_of "glfwPollEvents" (trace (main w fuel)) = n
  /\ balanced main_pairs (trace (main w fuel)) = true.
Proof.
  intros Halloc Hindices Hopen Hclose Hfuel.
  rewrite main_run, (main_setup_succeeds w Halloc Hindices).
  rewrite (main_loop_run w n 0 fuel);
    [|intros j Hj; apply Hopen; lia|exact Hclose|exact Hfuel].
  rewrite outcome_of, !trace_of.
  split; [reflexivity|]. split; [|split].
  - eexists. rewrite app_nil_r, !app_assoc. reflexivity.
  - rewrite !calls_of_app, calls_of_iterations.
    change (calls_of "glfwPollEvents" main_setup_trace) with 0%nat.
    change (calls_of "glfwPollEvents" main_loop_iteration) with 1%nat.
    cbn. lia.
  - unfold balanced, main_pairs. cbn [forallb fst snd].
    rewrite !calls_of_app.
    rewrite !calls_of_iterations_other by reflexivity.
    reflexivity.
Qed.

Lemma main_completes_witness :
  outcome (main plain_world 3) = Returned EXIT_SUCCESS
  /\ (exists pre, trace (main plain_world 3) = pre ++ trace main_cleanup)
  /\ calls_of "glfwPollEvents" (trace (main plain_world 3)) = 2%nat
  /\ balanced main_pairs (trace (main plain_world 3)) = true.
Proof.
  apply (main_completes plain_world 2 3).
  - reflexivity.
  - reflexivity.
  - intros j Hj. destruct j as [|[|j]]; [reflexivity|reflexivity|lia].
  - reflexivity.
  - lia.
Defined.

(** X17: when the allocation and the index queries succeed and the window
    never asks to close, [main] is still in its loop after any number of
    passes: it has polled once per pass and has reached no cleanup call. *)
Theorem main_stays_in_loop w fuel :
  malloc_ok w (main_extension_bytes w) = true ->
  main_indices_ok w = true ->
  (forall k, glfwWindowShouldClose w k = false) ->
  outcome (main w fuel) = OutOfFuel
  /\ calls_of "glfwPollEvents" (trace (main w fuel)) = fuel
  /\ calls_of "delete_Device" (trace (main w fuel)) = 0%nat
  /\ calls_of "delete_Instance" (trace (main w fuel)) = 0%nat
  /\ calls_of "glfwTerminate" (trace (main w fuel)) = 0%nat.
Proof.
  intros Halloc Hindices Hopen.
  rewrite main_run, (main_setup_succeeds w Halloc Hindices).
  rewrite (main_loop_open w fuel 0 Hopen).
  rewrite outcome_of, !trace_of.
  split; [reflexivity|].
  rewrite !calls_of_app, calls_of_iterations.
  rewrite !calls_of_iterations_other by reflexivity.
  change (calls_of "glfwPollEvents" main_setup_trace) with 0%nat.
  change (calls_of "glfwPollEvents" main_loop_iteration) with 1%nat.
  repeat split; cbn; lia.
Qed.

Lemma main_stays_in_loop_witness :
  outcome (main open_window_world 5) = OutOfFuel
  /\ calls_of "glfwPollEvents" (trace (main open_window_world 5)) = 5%nat
  /\ calls_of "delete_Device" (trace (main open_window_world 5)) = 0%nat
  /\ calls_of "delete_Instance" (trace (main open_window_world 5)) = 0%nat
  /\ calls_of "glfwTerminate" (trace (main open_window_world 5)) = 0%nat.
Proof.
  apply (main_stays_in_loop open_window_world 5).
  - reflexivity.
  - reflexivity.
  - intros k. reflexivity.
Defined.

(** X18: in no run of [main], whatever the world and however long it runs,
    is an object of the cleanup handed to a call that follows the call
    deleting it: nothing uses the device after [delete_Device], the instance
    after [delete_Instance], the swap chain after [delete_SwapChain], and so
    on for every pair of [main_deleted]. *)
Theorem main_no_use_after_delete w fuel :
  unused_after_delete main_deleted (trace (main w fuel)) = true.
Proof.
  rewrite main_run, main_setup_paths.
  pose proof (fun name => main_loop_calls w name fuel 0%nat) as Hloop.
  unfold trace in Hloop. unfold setup_path.
  destruct (negb (malloc_ok w _)); [reflexivity|].
  destruct (negb (main_indices_ok w)); [reflexivity|].
  change (main_setup plain_world) with (main_setup_trace, Returned tt).
  cbv iota beta.
  destruct (main_loop w fuel 0) as [l o]. cbn [fst] in Hloop.
  unfold unused_after_delete, main_deleted.
  destruct o as [[]|status|]; unfold trace; cbn [forallb fst snd].
  - rewrite !(after_call_skip _ main_setup_trace) by reflexivity.
    rewrite !(after_call_skip _ l) by (apply Hloop; reflexivity).
    reflexivity.
  - rewrite !(after_call_skip _ main_setup_trace) by reflexivity.
    rewrite !(after_call_none _ l) by (apply Hloop; reflexivity).
    reflexivity.
  - rewrite !(after_call_skip _ main_setup_trace) by reflexivity.
    rewrite !(after_call_none _ l) by (apply Hloop; reflexivity).
    reflexivity.
Qed.

(** ** Swap-chain construction, continued *)

(** X19: with both families resolved and a creation call that answers
    [VK_SUCCESS], [createSwapChain] logs nothing, issues that one call and
    returns the created handle; the request names the given surface and
    extent, passes the old swap chain on, takes its transform from the
    surface capabilities and asks for FIFO presentation. *)
Theorem createSwapChain_succeeds w old dev pd surf ext di swapChain :
  hasGraphics di = true ->
  hasPresent di = true ->
  vkCreateSwapchainKHR w dev (createSwapChain_createInfo w old pd surf ext di)
  = (VK_SUCCESS, swapChain) ->
  exists ci,
    createSwapChain w old dev pd surf ext di
    = ([EvCreateSwapchain dev ci], Returned swapChain)
    /\ surface ci = surf
    /\ imageExtent ci = ext
    /\ oldSwapchain ci = old
    /\ preTransform ci
       = cap_currentTransform (vkGetPhysicalDeviceSurfaceCapabilitiesKHR w pd surf)
    /\ presentMode ci = VK_PRESENT_MODE_FIFO_KHR.
Proof.
  intros Hgraphics Hpresent Hnative.
  exists (createSwapChain_createInfo w old pd surf ext di).
  rewrite createSwapChain_run. cbv zeta.
  rewrite Hgraphics, Hpresent, Hnative. cbn [negb orb fst snd].
  rewrite Z.eqb_refl. cbn [app].
  repeat split.
Qed.

Lemma createSwapChain_succeeds_witness :
  exists ci,
    createSwapChain plain_world 0 5 101 9 window_800x600 indices_split
    = ([EvCreateSwapchain 5 ci], Returned 77)
    /\ surface ci = 9
    /\ imageExtent ci = window_800x600
    /\ oldSwapchain ci = 0
    /\ preTransform ci
       = cap_currentTransform
           (vkGetPhysicalDeviceSurfaceCapabilitiesKHR plain_world 101 9)
    /\ presentMode ci = VK_PRESENT_MODE_FIFO_KHR.
Proof.
  apply (createSwapChain_succeeds plain_world 0 5 101 9 window_800x600
           indices_split 77); reflexivity.
Defined.

(** ** Logical device and debug messenger *)

(** The whole run of [createLogicalDevice], in closed form. *)
Lemma createLogicalDevice_run w l info pd qi ec en lc ln :
  createLogicalDevice w l info pd qi ec en lc ln =
  let ci := createLogicalDevice_createInfo qi ec en lc ln in
  let res := fst (vkCreateDevice l pd ci) in
  if negb (findMatchingStrings w (di_ppExtensionNames info)
             (di_extensionCount info) en ec =? ec)
  then ([msg_no_device_extension], Exited EXIT_FAILURE)
  else if negb (findMatchingStrings w (di_ppLayerNames info)
                  (di_layerCount info) ln lc =? lc)
  then ([msg_no_device_layer], Exited EXIT_FAILURE)
  else if res =? VK_SUCCESS
  then ([call_vkCreateDevice], Returned (snd (vkCreateDevice l pd ci)))
  else ([call_vkCreateDevice; msg_device_failed res], Exited EXIT_FAILURE).
Proof.
  unfold createLogicalDevice. cbn.
  destruct (negb (findMatchingStrings w (di_ppExtensionNames info) _ _ _ =? ec));
    [reflexivity|].
  destruct (negb (findMatchingStrings w (di_ppLayerNames info) _ _ _ =? lc));
    [reflexivity|].
  destruct (fst (vkCreateDevice _ _ _) =? VK_SUCCESS); reflexivity.
Qed.

(** X20: when the matcher finds every requested device extension and layer
    and [vkCreateDevice] answers [VK_SUCCESS], [createLogicalDevice] issues
    that one call, logs nothing and returns the created device; the request
    asks for exactly one queue, from the family it was given, and enables no
    device feature. *)
Theorem createLogicalDevice_succeeds w l info pd qi ec en lc ln device :
  findMatchingStrings w (di_ppExtensionNames info) (di_extensionCount info) en ec
  = ec ->
  findMatchingStrings w (di_ppLayerNames info) (di_layerCount info) ln lc = lc ->
  vkCreateDevice l pd (createLogicalDevice_createInfo qi ec en lc ln)
  = (VK_SUCCESS, device) ->
  createLogicalDevice w l info pd qi ec en lc ln
  = ([call_vkCreateDevice], Returned device)
  /\ exists q,
      dc_pQueueCreateInfos (createLogicalDevice_createInfo qi ec en lc ln) = [q]
      /\ dc_queueCreateInfoCount (createLogicalDevice_createInfo qi ec en lc ln) = 1
      /\ dq_queueFamilyIndex q = qi
      /\ dq_queueCount q = 1
      /\ Forall (fun feature => feature = 0)
           (dc_pEnabledFeatures (createLogicalDevice_createInfo qi ec en lc ln)).
Proof.
  intros Hext Hlayer Hnative.
  rewrite createLogicalDevice_run. cbv zeta.
  rewrite Hext, Hlayer, !Z.eqb_refl, Hnative. cbn [negb fst snd].
  rewrite Z.eqb_refl. split; [reflexivity|].
  eexists. split; [reflexivity|]. repeat split.
  cbn [dc_pEnabledFeatures createLogicalDevice_createInfo].
  apply Forall_forall. intros feature Hin. apply repeat_spec in Hin. exact Hin.
Qed.

Lemma createLogicalDevice_succeeds_witness :
  createLogicalDevice plain_world plain_loader some_device_info 101 0
    1 ["VK_KHR_swapchain"] 1 ["VK_LAYER_LUNARG_standard_validation"]
  = ([call_vkCreateDevice], Returned 21)
  /\ exists q,
      dc_pQueueCreateInfos
        (createLogicalDevice_createInfo 0 1 ["VK_KHR_swapchain"]
           1 ["VK_LAYER_LUNARG_standard_validation"]) = [q]
      /\ dc_queueCreateInfoCount
           (createLogicalDevice_createInfo 0 1 ["VK_KHR_swapchain"]
              1 ["VK_LAYER_LUNARG_standard_validation"]) = 1
      /\ dq_queueFamilyIndex q = 0
      /\ dq_queueCount q = 1
      /\ Forall (fun feature => feature = 0)
           (dc_pEnabledFeatures
              (createLogicalDevice_createInfo 0 1 ["VK_KHR_swapchain"]
                 1 ["VK_LAYER_LUNARG_standard_validation"])).
Proof.
  apply (createLogicalDevice_succeeds plain_world plain_loader some_device_info
           101 0 1 ["VK_KHR_swapchain"]
           1 ["VK_LAYER_LUNARG_standard_validation"] 21); reflexivity.
Defined.

(** X21: [createLogicalDevice] ends the process, after one log line, in each
    of its three failure cases: a requested device extension is not found
    or a requested device layer is not found (then [vkCreateDevice] is never
    called), or [vkCreateDevice] answers anything but [VK_SUCCESS] (then the
    error line carries the result code). *)
Theorem createLogicalDevice_failure w l info pd qi ec en lc ln :
  (findMatchingStrings w (di_ppExtensionNames info) (di_extensionCount info)
     en ec <> ec ->
   createLogicalDevice w l info pd qi ec en lc ln
   = ([msg_no_device_extension], Exited EXIT_FAILURE))
  /\ (findMatchingStrings w (di_ppExtensionNames info) (di_extensionCount info)
        en ec = ec ->
      findMatchingStrings w (di_ppLayerNames info) (di_layerCount info)
        ln lc <> lc ->
      createLogicalDevice w l info pd qi ec en lc ln
      = ([msg_no_device_layer], Exited EXIT_FAILURE))
  /\ (findMatchingStrings w (di_ppExtensionNames info) (di_extensionCount info)
        en ec = ec ->
      findMatchingStrings w (di_ppLayerNames info) (di_layerCount info)
        ln lc = lc ->
      fst (vkCreateDevice l pd (createLogicalDevice_createInfo qi ec en lc ln))
      <> VK_SUCCESS ->
      createLogicalDevice w l info pd qi ec en lc ln
      = ([call_vkCreateDevice;
          msg_device_failed
            (fst (vkCreateDevice l pd
                    (createLogicalDevice_createInfo qi ec en lc ln)))],
         Exited EXIT_FAILURE)).
Proof.
  rewrite createLogicalDevice_run. cbv zeta.
  split; [|split].
  - intros Hext. apply Z.eqb_neq in Hext. rewrite Hext. reflexivity.
  - intros Hext Hlayer. apply Z.eqb_neq in Hlayer.
    rewrite Hext, Z.eqb_refl, Hlayer. reflexivity.
  - intros Hext Hlayer Hnative. apply Z.eqb_neq in Hnative.
    rewrite Hext, Hlayer, !Z.eqb_refl, Hnative. reflexivity.
Qed.

Lemma createLogicalDevice_failure_witness :
  createLogicalDevice nothing_matches_world plain_loader some_device_info 101 0
    1 ["VK_KHR_swapchain"] 0 []
  = ([msg_no_device_extension], Exited EXIT_FAILURE)
  /\ createLogicalDevice nothing_matches_world plain_loader some_device_info 101 0
       0 [] 1 ["VK_LAYER_LUNARG_standard_validation"]
     = ([msg_no_device_layer], Exited EXIT_FAILURE)
  /\ createLogicalDevice plain_world failing_loader some_device_info 101 0
       1 ["VK_KHR_swapchain"] 0 []
     = ([call_vkCreateDevice; msg_device_failed VK_ERROR_INITIALIZATION_FAILED],
        Exited EXIT_FAILURE).
Proof.
  split; [|split].
  - apply (proj1 (createLogicalDevice_failure nothing_matches_world plain_loader
                    some_device_info 101 0 1 ["VK_KHR_swapchain"] 0 [])).
    vm_compute. discriminate.
  - apply (proj1 (proj2 (createLogicalDevice_failure nothing_matches_world
                           plain_loader some_device_info 101 0 0 []
                           1 ["VK_LAYER_LUNARG_standard_validation"]))).
    + reflexivity.
    + vm_compute. discriminate.
  - apply (proj2 (proj2 (createLogicalDevice_failure plain_world failing_loader
                           some_device_info 101 0 1 ["VK_KHR_swapchain"] 0 []))).
    + reflexivity.
    + reflexivity.
    + vm_compute. discriminate.
Defined.

(** X22: [createDebugCallback] returns a messenger only when the loader has
    [vkCreateDebugUtilsMessengerEXT] and the call answers [VK_SUCCESS].
    Without the function it logs a fatal line and ends the process without
    calling anything; with a failing call it logs the result code and ends
    the process. *)
Theorem createDebugCallback_cases l instance :
  (vkGetInstanceProcAddr l instance "vkCreateDebugUtilsMessengerEXT" = false ->
   createDebugCallback l instance
   = ([msg_no_extension_function], Exited EXIT_FAILURE))
  /\ (vkGetInstanceProcAddr l instance "vkCreateDebugUtilsMessengerEXT" = true ->
      fst (vkCreateDebugUtilsMessengerEXT l instance createDebugCallback_createInfo)
      <> VK_SUCCESS ->
      createDebugCallback l instance
      = ([call_vkCreateDebugUtilsMessengerEXT;
          msg_debug_callback_failed
            (fst (vkCreateDebugUtilsMessengerEXT l instance
                    createDebugCallback_createInfo))],
         Exited EXIT_FAILURE))
  /\ (forall tr callback,
      createDebugCallback l instance = (tr, Returned callback) ->
      vkGetInstanceProcAddr l instance "vkCreateDebugUtilsMessengerEXT" = true
      /\ vkCreateDebugUtilsMessengerEXT l instance createDebugCallback_createInfo
         = (VK_SUCCESS, callback)
      /\ tr = [call_vkCreateDebugUtilsMessengerEXT]).
Proof.
  unfold createDebugCallback. cbv zeta.
  destruct (vkGetInstanceProcAddr l instance "vkCreateDebugUtilsMessengerEXT");
    cbn.
  - split; [discriminate|].
    destruct (Z.eqb_spec
                (fst (vkCreateDebugUtilsMessengerEXT l instance
                        createDebugCallback_createInfo)) VK_SUCCESS)
      as [Hok|Hbad]; cbn.
    + split; [intros _ Hfail; contradiction|].
      intros tr callback [= <- <-]. split; [reflexivity|].
      split; [|reflexivity]. rewrite <- Hok. apply surjective_pairing.
    + split; [reflexivity|]. intros tr callback H. discriminate H.
  - split; [reflexivity|]. split; [discriminate|].
    intros tr callback H. discriminate H.
Qed.

Lemma createDebugCallback_cases_witness :
  createDebugCallback no_debug_utils_loader 11
  = ([msg_no_extension_function], Exited EXIT_FAILURE)
  /\ createDebugCallback failing_loader 11
     = ([call_vkCreateDebugUtilsMessengerEXT;
         msg_debug_callback_failed VK_ERROR_INITIALIZATION_FAILED],
        Exited EXIT_FAILURE)
  /\ (vkGetInstanceProcAddr plain_loader 11 "vkCreateDebugUtilsMessengerEXT" = true
      /\ vkCreateDebugUtilsMessengerEXT plain_loader 11 createDebugCallback_createInfo
         = (VK_SUCCESS, 31)
      /\ [call_vkCreateDebugUtilsMessengerEXT] = [call_vkCreateDebugUtilsMessengerEXT]).
Proof.
  split; [|split].
  - apply (proj1 (createDebugCallback_cases no_debug_utils_loader 11)).
    reflexivity.
  - apply (proj1 (proj2 (createDebugCallback_cases failing_loader 11))).
    + reflexivity.
    + vm_compute. discriminate.
  - apply (proj2 (proj2 (createDebugCallback_cases plain_loader 11))
             [call_vkCreateDebugUtilsMessengerEXT] 31).
    reflexivity.
Defined.

(** X23: whatever the severity, the type and the message, [debugCallback]
    writes exactly one log line and returns [VK_FALSE], so the Vulkan call
    that raised the message is never aborted; the line is never logged as
    fatal, and its level is unknown exactly when the severity is none of
    the verbose, info, warning and error bits. *)
Theorem debugCallback_never_aborts messageSeverity messageType pMessage :
  debugCallback messageSeverity messageType pMessage
  = ([EvLog (debugCallback_errcode messageSeverity)
        "Vulkan validation layer: %s\n" []],
     Returned VK_FALSE)
  /\ debugCallback_errcode messageSeverity <> FATAL
  /\ (debugCallback_errcode messageSeverity = UNKNOWN <->
      ~ In messageSeverity
          [VK_DEBUG_UTILS_MESSAGE_SEVERITY_VERBOSE_BIT_EXT;
           VK_DEBUG_UTILS_MESSAGE_SEVERITY_INFO_BIT_EXT;
           VK_DEBUG_UTILS_MESSAGE_SEVERITY_WARNING_BIT_EXT;
           VK_DEBUG_UTILS_MESSAGE_SEVERITY_ERROR_BIT_EXT]).
Proof.
  split; [reflexivity|].
  unfold debugCallback_errcode.
  destruct (Z.eqb_spec messageSeverity VK_DEBUG_UTILS_MESSAGE_SEVERITY_VERBOSE_BIT_EXT)
    as [->|Hverbose].
  { split; [discriminate|]. split; [discriminate|]. intros Hnot. exfalso.
    apply Hnot. left. reflexivity. }
  destruct (Z.eqb_spec messageSeverity VK_DEBUG_UTILS_MESSAGE_SEVERITY_INFO_BIT_EXT)
    as [->|Hinfo].
  { split; [discriminate|]. split; [discriminate|]. intros Hnot. exfalso.
    apply Hnot. right. left. reflexivity. }
  destruct (Z.eqb_spec messageSeverity VK_DEBUG_UTILS_MESSAGE_SEVERITY_WARNING_BIT_EXT)
    as [->|Hwarning].
  { split; [discriminate|]. split; [discriminate|]. intros Hnot. exfalso.
    apply Hnot. right. right. left. reflexivity. }
  destruct (Z.eqb_spec messageSeverity VK_DEBUG_UTILS_MESSAGE_SEVERITY_ERROR_BIT_EXT)
    as [->|Herror].
  { split; [discriminate|]. split; [discriminate|]. intros Hnot. exfalso.
    apply Hnot. right. right. right. left. reflexivity. }
  assert (Hunknown :
            (if messageSeverity
                =? VK_DEBUG_UTILS_MESSAGE_SEVERITY_FLAG_BITS_MAX_ENUM_EXT
             then UNKNOWN else UNKNOWN) = UNKNOWN)
    by (destruct (_ =? _); reflexivity).
  rewrite Hunknown. split; [discriminate|]. split; [|reflexivity].
  intros _ [H|[H|[H|[H|[]]]]]; congruence.
Qed.

(** ** How the queries compose *)

Lemma int32_of_uint32_found u : 0 <= u < 2 ^ 32 - 1 -> int32_of_uint32 u <> -1.
Proof.
  intros Hu. unfold int32_of_uint32.
  destruct (Z_lt_le_dec u (2 ^ 31)) as [Hsmall|Hlarge].
  - rewrite Z.mod_small by lia. lia.
  - replace (u + 2 ^ 31) with (u - 2 ^ 31 + 1 * 2 ^ 32) by lia.
    rewrite Z_mod_plus_full. rewrite Z.mod_small by lia. lia.
Qed.

Lemma getDeviceQueueIndex_loop_none_inv arr bit remaining : forall k,
  getDeviceQueueIndex_loop arr bit remaining k = None ->
  Z.land (queueFlags (nth 0 arr noQueueFamily)) bit = 0
  \/ forall j, (k <= j < k + remaining)%nat ->
       queueCount (nth j arr noQueueFamily) <= 0.
Proof.
  induction remaining as [|remaining IH]; intros k Hnone.
  - right. intros j Hj. lia.
  - cbn in Hnone.
    destruct (Z.eqb_spec (Z.land (queueFlags (nth 0 arr noQueueFamily)) bit) 0)
      as [Hf|Hf]; [left; exact Hf|].
    destruct (Z.gtb_spec (queueCount (nth k arr noQueueFamily)) 0) as [Hq|Hq];
      cbn in Hnone; [discriminate|].
    destruct (IH _ Hnone) as [Hflags|Hrest]; [left; exact Hflags|].
    right. intros j Hj. destruct (Nat.eq_dec j k) as [->|Hjk]; [exact Hq|].
    apply Hrest. lia.
Qed.

(** X24: the not-found value of [getPresentQueueIndex] is unambiguous: when
    the array can be allocated and the family count fits 32 bits, the
    function returns -1 exactly when no queue family of the device can
    present to the surface. *)
Theorem getPresentQueueIndex_not_found_iff w device surface :
  malloc_ok w (families_bytes w device) = true ->
  family_count w device < 2 ^ 32 ->
  (getPresentQueueIndex w device surface = ([], Returned (-1)) <->
   forall i, 0 <= i < family_count w device ->
     vkGetPhysicalDeviceSurfaceSupportKHR w device i surface = 0).
Proof.
  intros Halloc Hcount. rewrite getPresentQueueIndex_run. cbv zeta.
  rewrite Halloc. unfold family_count in *.
  destruct (getPresentQueueIndex_loop _ _ _ _ _) as [i|] eqn:Hloop.
  - apply getPresentQueueIndex_loop_some in Hloop.
    destruct Hloop as (Hrange & Hi & _). split.
    + intros [= Hminus]. exfalso.
      apply (int32_of_uint32_found (Z.of_nat i)); [lia|exact Hminus].
    + intros Hnone. exfalso. apply Hi. apply Hnone. lia.
  - split; [|reflexivity]. intros _ i Hi. rewrite <- (Z2Nat.id i) by lia.
    apply (getPresentQueueIndex_loop_none_inv _ _ _ _ _ Hloop). lia.
Qed.

Lemma getPresentQueueIndex_not_found_iff_witness :
  (getPresentQueueIndex headless_world 101 9 = ([], Returned (-1)) <->
   forall i, 0 <= i < family_count headless_world 101 ->
     vkGetPhysicalDeviceSurfaceSupportKHR headless_world 101 i 9 = 0).
Proof.
  apply (getPresentQueueIndex_not_found_iff headless_world 101 9);
    reflexivity.
Defined.

(** X25: a device returned by [createPhysicalDevice] never comes out of
    [getDeviceIndices] with neither a graphics nor a compute family:
    provided [getDeviceIndices] can allocate its family arrays, for every
    surface the indices are returned without output and at least one of
    [hasGraphics] and [hasCompute] is set. *)
Theorem selected_device_resolves_a_family w instance tr d surface :
  createPhysicalDevice w instance = (tr, Returned d) ->
  malloc_ok w (families_bytes w d) = true ->
  family_count w d < 2 ^ 32 ->
  exists di,
    getDeviceIndices w d surface = ([], Returned di)
    /\ (hasGraphics di = true \/ hasCompute di = true).
Proof.
  intros Hrun Halloc Hcount.
  destruct (createPhysicalDevice_returned w instance tr d Hrun)
    as (_ & _ & Hpass & _).
  unfold passes_selection, graphics_and_compute in Hpass.
  rewrite getDeviceQueueIndex_run in Hpass. cbv zeta in Hpass.
  rewrite getDeviceIndices_run.
  rewrite Halloc in Hpass |- *.
  cbn [outcome snd] in Hpass. cbv zeta.
  eexists. split; [reflexivity|]. cbn [hasGraphics hasCompute].
  unfold queue_index_result, family_count in *.
  set (arr := vkGetPhysicalDeviceQueueFamilyProperties w d) in *.
  destruct (getDeviceQueueIndex_loop arr (Z.lor _ _) _ _) as [i|] eqn:Hboth;
    [|discriminate].
  apply getDeviceQueueIndex_loop_some in Hboth.
  destruct Hboth as (Hrange & Hqueues & Hflags & _).
  assert (Hfound : forall bit,
             Z.land (queueFlags (nth 0 arr noQueueFamily)) bit <> 0 ->
             negb (match getDeviceQueueIndex_loop arr bit (List.length arr) 0 with
                   | Some j => int32_of_uint32 (Z.of_nat j)
                   | None => -1
                   end =? -1) = true).
  { intros bit Hbit.
    destruct (getDeviceQueueIndex_loop arr bit _ _) as [j|] eqn:Hloop.
    - apply getDeviceQueueIndex_loop_some in Hloop.
      apply negb_true_iff, Z.eqb_neq, int32_of_uint32_found. lia.
    - exfalso.
      destruct (getDeviceQueueIndex_loop_none_inv _ _ _ _ Hloop) as [H|H];
        [contradiction|].
      specialize (H i). lia. }
  rewrite Z.land_lor_distr_r in Hflags.
  destruct (Z.eq_dec
              (Z.land (queueFlags (nth 0 arr noQueueFamily)) VK_QUEUE_GRAPHICS_BIT) 0)
    as [Hg|Hg].
  - right. apply Hfound. intros Hc. apply Hflags. rewrite Hg, Hc. reflexivity.
  - left. apply Hfound. exact Hg.
Qed.

Lemma selected_device_resolves_a_family_witness :
  exists di,
    getDeviceIndices three_gpu_world 103 9 = ([], Returned di)
    /\ (hasGraphics di = true \/ hasCompute di = true).
Proof.
  apply (selected_device_resolves_a_family three_gpu_world 11 [] 103 9);
    reflexivity.
Defined.
